(** * unyt.dask_array: unit tracking on lazy chunked arrays

    A shallow embedding of [unyt/dask_array.py].  The module is a thin layer
    between two collaborators: the unit library ([unyt.array], imported as
    [ua]) and the lazy-array engine ([dask.array.core]).  Both are modelled
    only as far as the layer observes them; the functions of [dask_array.py]
    itself are transcribed one by one and keep their names.

    Python objects have identity.  Every object the layer creates (sidecar
    quantities, array instances) carries the identifier it was allocated
    with, and the interpreter state threads the allocation counter together
    with the list of graph nodes the engine has been asked to build. *)

From Stdlib Require Import QArith ZArith List String Bool Lia PeanoNat DecimalString.
Import ListNotations.
Open Scope nat_scope.
Open Scope string_scope.

Set Implicit Arguments.

(** ** Numbers

    Magnitudes are numpy floats.  They are idealised as exact rationals
    extended with the IEEE special values, so that [0/0] is [NaN] and
    [x/0] is an infinity, as numpy computes them; rounding and signed
    zeros are left out.  Finite results are kept in lowest terms. *)

Inductive fval : Type :=
| Fin (q : Q)
| Inf (negative : bool)
| NaN.

Definition Qzerob (q : Q) : bool := Qeq_bool q 0.
Definition Qnegb (q : Q) : bool := negb (Qle_bool 0 q).
Definition Qltb (a b : Q) : bool := negb (Qle_bool b a).

Definition fmul (a b : fval) : fval :=
  match a, b with
  | NaN, _ | _, NaN => NaN
  | Fin x, Fin y => Fin (Qred (x * y))
  | Inf s, Inf t => Inf (xorb s t)
  | Inf s, Fin y | Fin y, Inf s =>
      if Qzerob y then NaN else Inf (xorb s (Qnegb y))
  end.

Definition fdiv (a b : fval) : fval :=
  match a, b with
  | NaN, _ | _, NaN => NaN
  | Fin x, Fin y =>
      if Qzerob y
      then (if Qzerob x then NaN else Inf (Qnegb x))
      else Fin (Qred (x / y))
  | Fin _, Inf _ => Fin 0
  | Inf s, Fin y => Inf (xorb s (Qnegb y))
  | Inf _, Inf _ => NaN
  end.

Definition fadd (a b : fval) : fval :=
  match a, b with
  | NaN, _ | _, NaN => NaN
  | Fin x, Fin y => Fin (Qred (x + y))
  | Inf s, Inf t => if Bool.eqb s t then Inf s else NaN
  | Inf s, Fin _ | Fin _, Inf s => Inf s
  end.

Definition fneg (a : fval) : fval :=
  match a with
  | NaN => NaN
  | Fin x => Fin (Qred (- x))
  | Inf s => Inf (negb s)
  end.

Definition fsub (a b : fval) : fval := fadd a (fneg b).

Definition fabs (a : fval) : fval :=
  match a with
  | NaN => NaN
  | Fin x => Fin (Qred (if Qnegb x then - x else x))
  | Inf _ => Inf false
  end.

Definition finite_nonzero (a : fval) : Prop :=
  match a with
  | Fin q => ~ (q == 0)%Q
  | _ => False
  end.

(** Equality of magnitudes up to the representation of a rational. *)
Definition feq (a b : fval) : Prop :=
  match a, b with
  | Fin x, Fin y => (x == y)%Q
  | Inf s, Inf t => s = t
  | NaN, NaN => True
  | _, _ => False
  end.

(** ** Exceptions and the interpreter monad *)

Inductive exn : Type :=
| UnitOperationError
| UnitConversionError
| AttributeError (name : string)
| TypeError
| RecursionError.

Inductive res (A : Type) : Type :=
| Ok (a : A)
| Raise (e : exn).
Arguments Ok {A} a.
Arguments Raise {A} e.

(** ** The unit library ([unyt.array], imported as [ua]): units and
    quantities *)

Module ua.

(** Modelled from the spec: the unit type of the unit library, which is
    not part of [dask_array.py].  A unit has a printed expression, a
    [base_value] (its scale relative to the canonical unit of its
    dimension) and its [dimensions], here the exponents of the base
    dimensions (length, mass, time, ...). *)
Record Unit : Type := mkUnit {
  expr : string;
  base_value : Q;
  dimensions : list Z
}.

Fixpoint dims_zip (f : Z -> Z -> Z) (a b : list Z) : list Z :=
  match a, b with
  | [], _ => map (f 0%Z) b
  | _, [] => map (fun x => f x 0%Z) a
  | x :: a', y :: b' => f x y :: dims_zip f a' b'
  end.

(** Modelled from the spec: the dimension compatibility check
    ([u.dimensions == v.dimensions]); a missing exponent is zero. *)
Definition dims_eqb (a b : list Z) : bool :=
  forallb (Z.eqb 0) (dims_zip Z.sub a b).

(** Modelled from the spec: unit comparison ([u == v]).  Two units are the
    same unit when they have the same dimensions and the same scale. *)
Definition eqb (u v : Unit) : bool :=
  Qeq_bool (base_value u) (base_value v)
  && dims_eqb (dimensions u) (dimensions v).

Definition dimensionless : Unit := mkUnit "dimensionless" 1 [].

Definition mul (u v : Unit) : Unit :=
  mkUnit (expr u ++ "*" ++ expr v)
         (Qred (base_value u * base_value v))
         (dims_zip Z.add (dimensions u) (dimensions v)).

Definition div (u v : Unit) : Unit :=
  mkUnit (expr u ++ "/" ++ expr v)
         (Qred (base_value u / base_value v))
         (dims_zip Z.sub (dimensions u) (dimensions v)).

Definition pow (u : Unit) (n : Z) : Unit :=
  mkUnit (expr u ++ "**" ++ DecimalString.NilZero.string_of_int (Z.to_int n))
         (Qred (Qpower (base_value u) n))
         (map (Z.mul n) (dimensions u)).

(** Modelled from the spec: the multiplicative factor of a conversion
    from [u] to [v], the ratio of the two scales. *)
Definition conversion_factor (u v : Unit) : fval :=
  fdiv (Fin (base_value u)) (Fin (base_value v)).

(** The canonical units of a dimension in the two unit systems the
    conversions [in_mks]/[in_base] and [in_cgs] refer to. *)
Definition mks_base (u : Unit) : Unit :=
  mkUnit ("mks(" ++ expr u ++ ")") 1 (dimensions u).

Definition cgs_scale (dims : list Z) : Q :=
  match dims with
  | l :: m :: _ => Qred (Qpower (1 # 100) l * Qpower (1 # 1000) m)
  | [l] => Qred (Qpower (1 # 100) l)
  | [] => 1
  end.

Definition cgs_base (u : Unit) : Unit :=
  mkUnit ("cgs(" ++ expr u ++ ")") (cgs_scale (dimensions u)) (dimensions u).

(** Some units, for the examples. *)
Definition m : Unit := mkUnit "m" 1 [1%Z].
Definition cm : Unit := mkUnit "cm" (1 # 100) [1%Z].
Definition s : Unit := mkUnit "s" 1 [0%Z; 0%Z; 1%Z].


(** Modelled from the spec: the scalar unit-bearing value of the unit
    library.  [id] is the identity of the Python object. *)
Record unyt_quantity : Type := mk_quantity {
  id : nat;
  value : fval;
  units : Unit;
  name : option string
}.

(** Modelled from the spec: [q.to(u)].  The magnitude is scaled by the
    conversion factor; incompatible dimensions are rejected. *)
Definition convert (v : fval) (from to_ : Unit) : res (fval * Unit) :=
  if dims_eqb (dimensions from) (dimensions to_)
  then Ok (fmul v (conversion_factor from to_), to_)
  else Raise UnitConversionError.

End ua.

(** ** The lazy-array engine ([dask.array.core]) *)

(** What a materialized computation is made of: [type(r) == ndarray] holds
    of [ndarray _ _] only; [npscalar] is a numpy scalar such as the
    [float64] a full reduction returns. *)
Inductive raw : Type :=
| ndarray (shape : list nat) (data : list fval)
| npscalar (x : fval).

Definition kwargs : Type := list (string * string).

(** A lazy array is the graph of the operations that define it.  The
    arguments [(dask_graph, name, chunks, dtype, meta, shape)] that
    [__reduce__] hands back are this graph. *)
#[warnings="-register-all"]
Inductive Array : Type :=
| from_array (r : raw)
| const (x : fval)
| other (what : string)
| node (f : string) (args : list Array) (kw : kwargs).

Record state : Type := mkState {
  next_id : nat;          (* identity of the next object to be created *)
  built : list Array;     (* graph nodes the engine built, newest first *)
  assigned : list nat     (* instances whose unit state was assigned to *)
}.

Definition M (A : Type) : Type := state -> res A * state.

Definition ret {A} (a : A) : M A := fun s => (Ok a, s).
Definition raise {A} (e : exn) : M A := fun s => (Raise e, s).
Definition bind {A B} (c : M A) (k : A -> M B) : M B :=
  fun s => match c s with
           | (Ok a, s') => k a s'
           | (Raise e, s') => (Raise e, s')
           end.
Definition lift {A} (r : res A) : M A := fun s => (r, s).

Declare Scope py_scope.
Delimit Scope py_scope with py.
Notation "x <- c ;; k" := (bind c (fun x => k))
  (at level 100, c at next level, right associativity) : py_scope.
Notation "' pat <- c ;; k" := (bind c (fun x => match x with pat => k end))
  (at level 100, pat pattern, c at next level, right associativity) : py_scope.
Open Scope py_scope.

(** Creating a Python object yields its identity. *)
Definition new_object : M nat :=
  fun s => (Ok (next_id s), mkState (S (next_id s)) (built s) (assigned s)).

(** Every call into the engine builds one node of the graph. *)
Definition engine_call (f : string) (args : list Array) (kw : kwargs) : M Array :=
  fun s => let n := node f args kw in
           (Ok n, mkState (next_id s) (n :: built s) (assigned s)).

(** ** The data model of [dask_array.py] *)

Definition _use_simple_decorator : list string :=
  [ "min"; "max"; "sum"; "mean"; "std"; "cumsum"; "squeeze"; "rechunk";
    "clip"; "view"; "swapaxes"; "round"; "copy"; "__deepcopy__"; "repeat";
    "astype"; "reshape"; "topk" ].

Definition _unyt_funcs_to_track : list string :=
  [ "to"; "in_units"; "in_cgs"; "in_base"; "in_mks" ].

Definition name_in (name : string) (l : list string) : bool :=
  existsb (String.eqb name) l.

(** A method of a quantity bound to that quantity, [getattr(q, attr)]. *)
Record bound_method : Type := mk_bound {
  im_self : ua.unyt_quantity;
  im_name : string
}.

(** An instance of [class unyt_dask_array(Array)]: the [Array] part, the
    three attributes of the unit state, and the entries [__new__] writes
    into the instance dictionary under the conversion names. *)
Record unyt_dask_array : Type := mk_array {
  self_id : nat;
  dask : Array;
  _unyt_quantity : ua.unyt_quantity;
  units : ua.Unit;
  unyt_name : option string;
  __dict__ : list (string * bound_method)
}.

(** The Python values that reach the layer as operands or come out of it. *)
Inductive pyval : Type :=
| VInst (a : unyt_dask_array)
| VDask (d : Array)
| VQuantity (q : ua.unyt_quantity)
| VUnit (u : ua.Unit)
| VNum (x : fval)
| VBool (b : bool).

(** ** The unit library: what the methods of a quantity compute *)

Module unyt_quantity.

Import ua.

(** What the unit library hands back before the object exists. *)
Inductive outcome : Type :=
| quantity (v : fval) (u : Unit) (n : option string)
| number (x : fval)
| boolean (b : bool).

Definition method : Type := list pyval -> kwargs -> res outcome.

Definition operand (p : pyval) : option (fval * option Unit) :=
  match p with
  | VQuantity q => Some (value q, Some (units q))
  | VNum x => Some (x, None)
  | _ => None
  end.

Definition unit_of (u : option Unit) : Unit :=
  match u with Some u => u | None => dimensionless end.

(** Modelled from the spec: addition and subtraction of the unit library
    are dimension-checked; operands of one dimension in different units
    are brought to the unit of larger scale. *)
Definition additive (f : fval -> fval -> fval) (a b : pyval) : res outcome :=
  match operand a, operand b with
  | Some (x, ou), Some (y, ov) =>
      let u := unit_of ou in
      let v := unit_of ov in
      if negb (dims_eqb (dimensions u) (dimensions v))
      then Raise UnitOperationError
      else if eqb u v then Ok (quantity (f x y) u None)
      else if Qltb (base_value u) (base_value v)
      then Ok (quantity (f (fmul x (conversion_factor u v)) y) v None)
      else Ok (quantity (f x (fmul y (conversion_factor v u))) u None)
  | _, _ => Raise TypeError
  end.

(** Modelled from the spec: multiplication and division combine the
    units; a plain number leaves the unit alone. *)
Definition multiplicative (f : fval -> fval -> fval)
           (g : Unit -> Unit -> Unit) (a b : pyval) : res outcome :=
  match operand a, operand b with
  | Some (x, Some u), Some (y, Some v) => Ok (quantity (f x y) (g u v) None)
  | Some (x, Some u), Some (y, None) => Ok (quantity (f x y) u None)
  | Some (x, None), Some (y, Some v) =>
      Ok (quantity (f x y) (g dimensionless v) None)
  | _, _ => Raise TypeError
  end.

Definition fpow (x : fval) (n : Z) : fval :=
  match x with
  | Fin q => if Qzerob q && (n <? 0)%Z then Inf false
             else Fin (Qred (Qpower q n))
  | _ => NaN
  end.

Definition integral (q : Q) : option Z :=
  let r := Qred q in
  if Pos.eqb (Qden r) 1 then Some (Qnum r) else None.

(** Modelled from the spec: a power raises the unit to the exponent.
    Only integral exponents are covered. *)
Definition power (a b : pyval) : res outcome :=
  match operand a, b with
  | Some (x, Some u), VNum (Fin e) =>
      match integral e with
      | Some n => Ok (quantity (fpow x n) (pow u n) None)
      | None => Raise TypeError
      end
  | _, _ => Raise TypeError
  end.

Definition binary (f : pyval -> pyval -> res outcome) (reflected : bool)
  : method :=
  fun args _ =>
    match args with
    | [self; other_] => if reflected then f other_ self else f self other_
    | _ => Raise TypeError
    end.

Definition absolute : method :=
  fun args _ =>
    match args with
    | [VQuantity q] => Ok (quantity (fabs (value q)) (units q) None)
    | _ => Raise TypeError
    end.

(** [getattr(ua.unyt_quantity, funcname)] for the operators the class
    intercepts.  Python 3 numbers have no [__div__]. *)
Definition getattr (funcname : string) : res method :=
  if funcname =? "__abs__" then Ok absolute
  else if funcname =? "__pow__" then Ok (binary power false)
  else if funcname =? "__mul__" then Ok (binary (multiplicative fmul mul) false)
  else if funcname =? "__rmul__" then Ok (binary (multiplicative fmul mul) true)
  else if funcname =? "__truediv__" then Ok (binary (multiplicative fdiv div) false)
  else if funcname =? "__rtruediv__" then Ok (binary (multiplicative fdiv div) true)
  else if funcname =? "__add__" then Ok (binary (additive fadd) false)
  else if funcname =? "__radd__" then Ok (binary (additive fadd) true)
  else if funcname =? "__sub__" then Ok (binary (additive fsub) false)
  else if funcname =? "__rsub__" then Ok (binary (additive fsub) true)
  else Raise (AttributeError funcname).

(** Modelled from the spec: the conversion methods of a quantity,
    [getattr(q, name)] applied to the arguments.  [to] and [in_units] take
    the target unit; the others go to the canonical unit of a unit
    system. *)
Definition conversion (name : string) (q : unyt_quantity)
           (args : list pyval) (kw : kwargs) : res (fval * Unit) :=
  if (name =? "to") || (name =? "in_units") then
    match args with
    | [VUnit u] => convert (value q) (units q) u
    | _ => Raise TypeError
    end
  else if (name =? "in_base") || (name =? "in_mks") then
    match args with
    | [] => convert (value q) (units q) (mks_base (units q))
    | _ => Raise TypeError
    end
  else if name =? "in_cgs" then
    match args with
    | [] => convert (value q) (units q) (cgs_base (units q))
    | _ => Raise TypeError
    end
  else Raise (AttributeError name).

End unyt_quantity.

(** A function the layer replays on the sidecars: a numpy ufunc, an array
    function, or a method of the quantity class. *)
Record ufunc : Type := mk_ufunc {
  __name__ : string;
  __call__ : unyt_quantity.method
}.

(** The result of a replay, once it exists as an object:
    [hasattr(unyt_result, 'units')] holds of [has_units _] only. *)
Inductive unyt_result : Type :=
| has_units (q : ua.unyt_quantity)
| no_units (p : pyval).

(** [ua.unyt_quantity(value, units, ..., name)]: a new quantity object;
    no unit means dimensionless. *)
Definition new_quantity (v : fval) (u : option ua.Unit)
           (n : option string) : M ua.unyt_quantity :=
  i <- new_object ;;
  ret (ua.mk_quantity i v (unyt_quantity.unit_of u) n).

(** The call of [ufunc] on [unyt_inputs] and the keyword arguments. *)
Definition replay (f : unyt_quantity.method) (unyt_inputs : list pyval)
           (kw : kwargs) : M unyt_result :=
  o <- lift (f unyt_inputs kw) ;;
  match o with
  | unyt_quantity.quantity v u n =>
      q <- new_quantity v (Some u) n ;; ret (has_units q)
  | unyt_quantity.number x => ret (no_units (VNum x))
  | unyt_quantity.boolean b => ret (no_units (VBool b))
  end.

(** ** The functions of [dask_array.py] *)

(** Python callables are functions of the positional and the keyword
    arguments; an attribute is a callable or a plain value. *)
Definition callable : Type := list pyval -> kwargs -> M pyval.

Inductive attribute : Type :=
| method (f : callable)
| data (v : pyval)
| text (s : option string).

Definition _extract_unyt (obj : pyval) : pyval :=
  match obj with
  | VInst a => VQuantity (_unyt_quantity a)
  | _ => obj
  end.

Definition to_dask (self : unyt_dask_array) : Array := dask self.

Definition _extract_dask (obj : pyval) : pyval :=
  match obj with
  | VInst a => VDask (to_dask a)
  | _ => obj
  end.

Definition _extract_unyt_val (obj : pyval) : pyval :=
  match obj with
  | VQuantity q => VNum (ua.value q)
  | _ => obj
  end.

(** [obj.units] where [hasattr(obj, 'units')]. *)
Definition getattr_units (obj : pyval) : option ua.Unit :=
  match obj with
  | VInst a => Some (units a)
  | VQuantity q => Some (ua.units q)
  | _ => None
  end.

(** How the engine sees an argument. *)
Definition graph_of (obj : pyval) : Array :=
  match obj with
  | VInst a => dask a
  | VDask d => d
  | VQuantity q => const (ua.value q)
  | VNum x => const x
  | VBool b => other (if b then "True" else "False")
  | VUnit u => other (ua.expr u)
  end.

Definition type_name (obj : pyval) : string :=
  match obj with
  | VInst _ => "unyt_dask_array"
  | VDask _ => "Array"
  | VQuantity _ => "unyt_quantity"
  | VUnit _ => "Unit"
  | VNum _ => "float"
  | VBool _ => "bool"
  end.

(** The methods of the engine's [Array] class, reached through [super()]
    and [getattr(Array, funcname)].  Each builds one node. *)
Module Array_.

Definition getattr (funcname : string) : callable :=
  fun args kw =>
    d <- engine_call funcname (map graph_of args) kw ;; ret (VDask d).

Definition _elemwise (f : ufunc) : callable :=
  fun args kw =>
    d <- engine_call "_elemwise" (other (__name__ f) :: map graph_of args) kw ;;
    ret (VDask d).

Definition __array_ufunc__ (f : ufunc) (method_ : string) : callable :=
  fun inputs kw =>
    d <- engine_call "__array_ufunc__"
           (other (__name__ f) :: other method_ :: map graph_of inputs) kw ;;
    ret (VDask d).

Definition __array_function__ (f : ufunc) (types : list string) : callable :=
  fun args kw =>
    d <- engine_call "__array_function__"
           (other (__name__ f) :: map other types ++ map graph_of args) kw ;;
    ret (VDask d).

(** Attributes of [Array] other than those the subclass sets. *)
Definition attributes : list string :=
  _use_simple_decorator ++ [ "transpose"; "flatten"; "ravel"; "dot" ].

End Array_.

(** [unyt_dask_array.__new__]: the base array, then the sidecar with
    magnitude 1, then the two attributes read off the sidecar, then the
    conversion methods of the sidecar under their names.  The registry,
    the validation flag and the input-unit hint only reach the quantity
    constructor and are left out. *)
Definition __new__ (dask_graph : Array) (units : option ua.Unit)
           (unyt_name : option string) : M unyt_dask_array :=
  obj <- new_object ;;
  q <- new_quantity (Fin 1) units unyt_name ;;
  ret (mk_array obj dask_graph q (ua.units q) (ua.name q)
         (map (fun attr => (attr, mk_bound q attr)) _unyt_funcs_to_track)).

(** [_set_unit_state] assigns to the three attributes of [self]; the
    instance it returns is [self] after the assignments, and the state
    records that [self] was written to. *)
Definition _set_unit_state (self : unyt_dask_array) (units : ua.Unit)
           (new_unyt_quantity : ua.unyt_quantity)
           (unyt_name : option string) : M unyt_dask_array :=
  fun s =>
    (Ok (mk_array (self_id self) (dask self) new_unyt_quantity units unyt_name
                  (__dict__ self)),
     mkState (next_id s) (built s) (self_id self :: assigned s)).

Definition unyt_from_dask (dask_array : pyval) (units : option ua.Unit)
           (unyt_name : option string) : M unyt_dask_array :=
  match dask_array with
  | VInst a => __new__ (dask a) units unyt_name
  | VDask d => __new__ d units unyt_name
  | _ => raise (AttributeError "__reduce__")
  end.

Definition _create_with_quantity (dask_array : pyval)
           (new_unyt_quantity : ua.unyt_quantity) : M unyt_dask_array :=
  out <- unyt_from_dask dask_array None None ;;
  let units := ua.units new_unyt_quantity in
  let unyt_name := ua.name new_unyt_quantity in
  _set_unit_state out units new_unyt_quantity unyt_name.

Definition _simple_dask_decorator (dask_func : callable)
           (current_unyt_dask : unyt_dask_array) : callable :=
  fun args kw =>
    da <- dask_func args kw ;;
    out <- _create_with_quantity da (_unyt_quantity current_unyt_dask) ;;
    ret (VInst out).

Definition _post_ufunc (dask_superfunk : callable)
           (unyt_result : unyt_result) : callable :=
  fun args kw =>
    dask_result <- dask_superfunk args kw ;;
    match unyt_result with
    | has_units q => out <- _create_with_quantity dask_result q ;; ret (VInst out)
    | no_units _ => ret dask_result
    end.

(** Calling a method a quantity was asked for: the conversion happens in
    the unit library and a new quantity comes back. *)
Definition bound_call (b : bound_method) : callable :=
  fun args kw =>
    '(v, u) <- lift (unyt_quantity.conversion (im_name b) (im_self b) args kw) ;;
    q <- new_quantity v (Some u) (ua.name (im_self b)) ;;
    ret (VQuantity q).

Definition as_callable (a : attribute) : callable :=
  match a with
  | method f => f
  | _ => fun _ _ => raise TypeError
  end.

(** The functions below call [obj.to(unit)] on an operand, and the method
    that answers is found when the call is made; they take it as
    [method_to], and the knot is tied after the section. *)
Section Dispatch.

Variable method_to : pyval -> ua.Unit -> M pyval.

Definition _sanitize_unit_args (input : list pyval)
  : M (list pyval * list pyval) :=
  let unyt_inputs := map _extract_unyt input in
  match input with
  | i0 :: i1 :: rest =>
      let ui_0 := _extract_unyt i0 in
      let ui_1 := _extract_unyt i1 in
      match getattr_units ui_0, getattr_units ui_1 with
      | Some u0, Some u1 =>
          if negb (ua.eqb u0 u1)
             && ua.dims_eqb (ua.dimensions u0) (ua.dimensions u1)
          then
            input <- (if Qltb (ua.base_value u0) (ua.base_value u1)
                      then c <- method_to i0 u1 ;; ret (c :: i1 :: rest)
                      else c <- method_to i1 u0 ;; ret (i0 :: c :: rest)) ;;
            ret (input, map _extract_unyt input)
          else ret (input, unyt_inputs)
      | _, _ => ret (input, unyt_inputs)
      end
  | _ => ret (input, unyt_inputs)
  end.

Definition _prep_ufunc (f : unyt_quantity.method) (input : list pyval)
           (extract_dask : bool) (kw : kwargs)
  : M (list pyval * unyt_result) :=
  '(input, unyt_inputs) <- _sanitize_unit_args input ;;
  unyt_result <- replay f unyt_inputs kw ;;
  let input := if extract_dask then map _extract_dask input else input in
  let input := map _extract_unyt_val input in
  ret (input, unyt_result).

Definition _special_dec (the_func : string) : callable :=
  fun args kw =>
    let funcname := the_func in
    f <- lift (unyt_quantity.getattr funcname) ;;
    '(newargs, unyt_result) <- _prep_ufunc f args true kw ;;
    let dasksuperfunk := Array_.getattr funcname in
    daskresult <- dasksuperfunk newargs kw ;;
    match unyt_result with
    | has_units q => out <- _create_with_quantity daskresult q ;; ret (VInst out)
    | no_units _ => ret daskresult
    end.

(** The operators the class defines through the decorator. *)
Definition __abs__ : callable := _special_dec "__abs__".
Definition __pow__ : callable := _special_dec "__pow__".
Definition __mul__ : callable := _special_dec "__mul__".
Definition __rmul__ : callable := _special_dec "__rmul__".
Definition __div__ : callable := _special_dec "__div__".
Definition __rdiv__ : callable := _special_dec "__rdiv__".
Definition __truediv__ : callable := _special_dec "__truediv__".
Definition __rtruediv__ : callable := _special_dec "__rtruediv__".
Definition __add__ : callable := _special_dec "__add__".
Definition __radd__ : callable := _special_dec "__radd__".
Definition __sub__ : callable := _special_dec "__sub__".
Definition __rsub__ : callable := _special_dec "__rsub__".

Definition _track_conversion (unyt_func_name : string)
           (current_unyt_dask : unyt_dask_array) : callable :=
  fun args kw =>
    let init_val := ua.value (_unyt_quantity current_unyt_dask) in
    '(v, u) <- lift (unyt_quantity.conversion unyt_func_name
                       (_unyt_quantity current_unyt_dask) args kw) ;;
    new_unyt_quantity <-
      new_quantity v (Some u) (ua.name (_unyt_quantity current_unyt_dask)) ;;
    let factor := fdiv (ua.value new_unyt_quantity) init_val in
    let units := ua.units new_unyt_quantity in
    product <- __mul__ [VInst current_unyt_dask; VNum factor] [] ;;
    new_obj <- unyt_from_dask product (Some units) None ;;
    ret (VInst new_obj).

Definition _elemwise (self : unyt_dask_array) (f : ufunc) : callable :=
  fun args kw =>
    '(args, unyt_result) <- _prep_ufunc (__call__ f) args false kw ;;
    _post_ufunc (Array_._elemwise f) unyt_result args kw.

Definition __array_ufunc__ (self : unyt_dask_array) (numpy_ufunc : ufunc)
           (method_ : string) : callable :=
  fun inputs kw =>
    '(inputs, unyt_result) <- _prep_ufunc (__call__ numpy_ufunc) inputs true kw ;;
    _post_ufunc (Array_.__array_ufunc__ numpy_ufunc method_) unyt_result inputs kw.

Definition __array_function__ (self : unyt_dask_array) (func : ufunc)
           (types : list string) : callable :=
  fun args kw =>
    '(args, unyt_result) <- _prep_ufunc (__call__ func) args true kw ;;
    let types := map type_name args in
    _post_ufunc (Array_.__array_function__ func types) unyt_result args kw.

(** [super().__getattribute__(name)]: the instance dictionary, then the
    class. *)
Definition object_getattribute (self : unyt_dask_array) (name : string)
  : res attribute :=
  if name =? "units" then Ok (data (VUnit (units self)))
  else if name =? "_unyt_quantity" then Ok (data (VQuantity (_unyt_quantity self)))
  else if name =? "unyt_name" then Ok (text (unyt_name self))
  else
    match find (fun e => fst e =? name) (__dict__ self) with
    | Some (_, b) => Ok (method (bound_call b))
    | None =>
        if name_in name Array_.attributes
        then Ok (method (fun args kw => Array_.getattr name (VInst self :: args) kw))
        else Raise (AttributeError name)
    end.

Definition __getattribute__ (self : unyt_dask_array) (name : string)
  : res attribute :=
  if name_in name _unyt_funcs_to_track
  then Ok (method (_track_conversion name self))
  else
    match object_getattribute self name with
    | Raise e => Raise e
    | Ok result =>
        if name_in name _use_simple_decorator
        then Ok (method (_simple_dask_decorator (as_callable result) self))
        else Ok result
    end.

End Dispatch.

(** [obj.to(unit)] as Python resolves it: through [__getattribute__] on an
    instance, in the unit library on a quantity.  [depth] bounds the
    nesting of calls as the interpreter's recursion limit does. *)
Fixpoint method_to (depth : nat) (obj : pyval) (u : ua.Unit) : M pyval :=
  match depth with
  | O => raise RecursionError
  | S d =>
      match obj with
      | VInst a =>
          match __getattribute__ (method_to d) a "to" with
          | Ok f => as_callable f [VUnit u] []
          | Raise e => raise e
          end
      | VQuantity q => bound_call (mk_bound q "to") [VUnit u] []
      | _ => raise (AttributeError "to")
      end
  end.

Definition recursion_limit : nat := 1000.

(** The interpreter's own resolution of [.to]. *)
Definition dot_to : pyval -> ua.Unit -> M pyval := method_to recursion_limit.

(** Attribute access followed by a call, [getattr(self, name)] applied to
    the arguments. *)
Definition call_method (self : unyt_dask_array) (name : string) : callable :=
  fun args kw =>
    match __getattribute__ dot_to self name with
    | Ok f => as_callable f args kw
    | Raise e => raise e
    end.

(** ** Materialization *)

(** What [compute()] returns: [ua.unyt_array(result, unit)] or
    [ua.unyt_quantity(result, unit)]. *)
Inductive concrete : Type :=
| unyt_array_of (result : raw) (unit_name : ua.Unit)
| unyt_quantity_of (result : raw) (unit_name : ua.Unit).

Definition is_ndarray (r : raw) : bool :=
  match r with
  | ndarray _ _ => true
  | npscalar _ => false
  end.

Section Finalizer.

(** The engine's own [finalize], which assembles the results of the
    chunks into one value. *)
Variable results : Type.
Variable finalize : results -> raw.

Definition _finalize_unyt (res_ : results) (unit_name : ua.Unit) : concrete :=
  let result := finalize res_ in
  if is_ndarray result
  then unyt_array_of result unit_name
  else unyt_quantity_of result unit_name.

Definition __dask_postcompute__ (self : unyt_dask_array)
  : (results -> ua.Unit -> concrete) * ua.Unit :=
  (_finalize_unyt, units self).

End Finalizer.

(** Modelled from the spec: what the engine computes for a graph, for the
    operations the examples use.  Operators work elementwise, a full
    reduction returns a numpy scalar. *)
Definition elementwise (f : fval -> fval -> fval) (a b : raw) : option raw :=
  match a, b with
  | ndarray sh d, npscalar y => Some (ndarray sh (map (fun x => f x y) d))
  | npscalar x, ndarray sh d => Some (ndarray sh (map (f x) d))
  | npscalar x, npscalar y => Some (npscalar (f x y))
  | ndarray sh d, ndarray sh' d' =>
      if list_eq_dec Nat.eq_dec sh sh'
      then Some (ndarray sh (map (fun p => f (fst p) (snd p)) (combine d d')))
      else None
  end.

Definition total (r : raw) : fval :=
  match r with
  | ndarray _ d => fold_left fadd d (Fin 0)
  | npscalar x => x
  end.

Definition count (r : raw) : nat :=
  match r with
  | ndarray _ d => List.length d
  | npscalar _ => 1
  end.

Definition run_node (f : string) (args : list (option raw)) : option raw :=
  match args with
  | [Some a; Some b] =>
      if f =? "__mul__" then elementwise fmul a b
      else if f =? "__add__" then elementwise fadd a b
      else if f =? "__sub__" then elementwise fsub a b
      else if f =? "__truediv__" then elementwise fdiv a b
      else None
  | [Some a] =>
      if f =? "sum" then Some (npscalar (total a))
      else if f =? "mean"
      then Some (npscalar (fdiv (total a) (Fin (inject_Z (Z.of_nat (count a))))))
      else if f =? "copy" then Some a
      else None
  | _ => None
  end.

Fixpoint schedule (a : Array) : option raw :=
  match a with
  | from_array r => Some r
  | const x => Some (npscalar x)
  | other _ => None
  | node f args _ => run_node f (map schedule args)
  end.

(** [x.compute()]: the engine runs the graph and applies the function of
    [__dask_postcompute__] to the result and the extra argument. *)
Definition compute (x : unyt_dask_array) : option concrete :=
  match schedule (dask x) with
  | Some r =>
      let '(finalize_, unit_) := __dask_postcompute__ (fun r : raw => r) x in
      Some (finalize_ r unit_)
  | None => None
  end.

(** ** Values the statements refer to *)

(** The entries [__new__] writes into the dictionary of an instance whose
    sidecar is [q]. *)
Definition conversion_dict (q : ua.unyt_quantity) : list (string * bound_method) :=
  map (fun attr => (attr, mk_bound q attr)) _unyt_funcs_to_track.

(** The instance a conversion of [x] returns when the unit library answers
    with magnitude [v] and unit [u], and [n] objects existed before. *)
Definition converted (x : unyt_dask_array) (v : fval) (u : ua.Unit) (n : nat)
  : unyt_dask_array :=
  let q := ua.mk_quantity (5 + n) (Fin 1) u None in
  mk_array (4 + n)
           (node "__mul__"
                 [dask x; const (fdiv v (ua.value (_unyt_quantity x)))] [])
           q u None (conversion_dict q).

(** The state a conversion of [x] leaves: six objects created, one node
    built, and the unit state of one new instance assigned to. *)
Definition after_conversion (x : unyt_dask_array) (v : fval) (u : ua.Unit)
           (s : state) : state :=
  mkState (6 + next_id s)
          (dask (converted x v u (next_id s)) :: built s)
          (2 + next_id s :: assigned s).

(** What [obj.to(u)] returns on an operand that carries units of the
    dimensions of [u], and the state it leaves. *)
Definition to_value (obj : pyval) (u : ua.Unit) (s : state) : pyval * state :=
  match obj with
  | VInst a =>
      let q := _unyt_quantity a in
      let v := fmul (ua.value q) (ua.conversion_factor (ua.units q) u) in
      (VInst (converted a v u (next_id s)), after_conversion a v u s)
  | VQuantity q =>
      let v := fmul (ua.value q) (ua.conversion_factor (ua.units q) u) in
      (VQuantity (ua.mk_quantity (next_id s) v u (ua.name q)),
       mkState (S (next_id s)) (built s) (assigned s))
  | _ => (obj, s)
  end.

(** The operands after sanitation when the first two have different units
    of the same dimension. *)
Definition reconciled (i0 i1 : pyval) (rest : list pyval) (u0 u1 : ua.Unit)
           (s : state) : list pyval * state :=
  if Qltb (ua.base_value u0) (ua.base_value u1)
  then (fst (to_value i0 u1 s) :: i1 :: rest, snd (to_value i0 u1 s))
  else (i0 :: fst (to_value i1 u0 s) :: rest, snd (to_value i1 u0 s)).

(** Whether sanitation has anything to do: the first two extracted operands
    both carry units, in different units of one dimension. *)
Definition reconcilable (input : list pyval) : bool :=
  match input with
  | i0 :: i1 :: _ =>
      match getattr_units (_extract_unyt i0), getattr_units (_extract_unyt i1) with
      | Some u0, Some u1 =>
          negb (ua.eqb u0 u1)
          && ua.dims_eqb (ua.dimensions u0) (ua.dimensions u1)
      | _, _ => false
      end
  | _ => false
  end.

(** The operators that keep the unit of their operands. *)
Definition additive_names : list string :=
  [ "__add__"; "__radd__"; "__sub__"; "__rsub__" ].

(** The instance [unyt_from_dask(d, u)] creates when [i] objects exist. *)
Definition fresh_instance (d : Array) (u : ua.Unit) (i : nat) : unyt_dask_array :=
  let q := ua.mk_quantity (S i) (Fin 1) u None in
  mk_array i d q u None (conversion_dict q).

(** ** Concrete arrays for the examples *)

Definition s0 : state := mkState 0 [] [].

Definition grid : Array :=
  from_array (ndarray [2; 2] [Fin 1; Fin 2; Fin 3; Fin 4]).

Definition x_m : unyt_dask_array := fresh_instance grid ua.m 0.
Definition y_cm : unyt_dask_array := fresh_instance grid ua.cm 2.
Definition y_s : unyt_dask_array := fresh_instance grid ua.s 2.
Definition y_m : unyt_dask_array := fresh_instance grid ua.m 2.

(** The state once two arrays have been created. *)
Definition s2 : state := mkState 4 [] [].

(** ** The places where the class intercepts an operation *)

Inductive hook : Type :=
| hook_elemwise (self : unyt_dask_array) (f : ufunc)
| hook_array_ufunc (self : unyt_dask_array) (numpy_ufunc : ufunc) (method_ : string)
| hook_array_function (self : unyt_dask_array) (func : ufunc) (types : list string)
| hook_special (the_func : string).

Definition intercept (h : hook) : callable :=
  match h with
  | hook_elemwise self f => _elemwise dot_to self f
  | hook_array_ufunc self f method_ => __array_ufunc__ dot_to self f method_
  | hook_array_function self f types => __array_function__ dot_to self f types
  | hook_special the_func => _special_dec dot_to the_func
  end.

(** The function a hook replays on the sidecars. *)
Definition replayed (h : hook) : res unyt_quantity.method :=
  match h with
  | hook_elemwise _ f => Ok (__call__ f)
  | hook_array_ufunc _ f _ => Ok (__call__ f)
  | hook_array_function _ f _ => Ok (__call__ f)
  | hook_special the_func => unyt_quantity.getattr the_func
  end.

(** Whether a hook strips unit-bearing operands down to plain arrays. *)
Definition strips (h : hook) : bool :=
  match h with
  | hook_elemwise _ _ => false
  | _ => true
  end.

(** The node a hook asks the engine to build from the sanitized operands. *)
Definition delegated (h : hook) (args : list pyval) (kw : kwargs) : Array :=
  match h with
  | hook_elemwise _ f =>
      node "_elemwise" (other (__name__ f) :: map graph_of args) kw
  | hook_array_ufunc _ f method_ =>
      node "__array_ufunc__"
           (other (__name__ f) :: other method_ :: map graph_of args) kw
  | hook_array_function _ f _ =>
      node "__array_function__"
           (other (__name__ f) :: map other (map type_name args)
                  ++ map graph_of args) kw
  | hook_special the_func => node the_func (map graph_of args) kw
  end.

(** The state after the engine has built [n]. *)
Definition with_node (n : Array) (s : state) : state :=
  mkState (next_id s) (n :: built s) (assigned s).

(** Modelled from the spec: a comparison of the unit library.  It checks
    the dimensions, compares the magnitudes in the unit of the first
    operand and returns a plain boolean, which has no units. *)
Definition comparison (f : Q -> Q -> bool) (a b : pyval)
  : res unyt_quantity.outcome :=
  match unyt_quantity.operand a, unyt_quantity.operand b with
  | Some (x, ou), Some (y, ov) =>
      let u := unyt_quantity.unit_of ou in
      let v := unyt_quantity.unit_of ov in
      if negb (ua.dims_eqb (ua.dimensions u) (ua.dimensions v))
      then Raise UnitOperationError
      else match x, fmul y (ua.conversion_factor v u) with
           | Fin p, Fin q => Ok (unyt_quantity.boolean (f p q))
           | _, _ => Ok (unyt_quantity.boolean false)
           end
  | _, _ => Raise TypeError
  end.

Definition np_greater : ufunc :=
  mk_ufunc "greater" (unyt_quantity.binary (comparison (fun p q => Qltb q p)) false).

Definition np_add : ufunc :=
  mk_ufunc "add" (unyt_quantity.binary (unyt_quantity.additive fadd) false).

(** ** The invariant of the unit state *)

(** [units] and [unyt_name] are what the sidecar says. *)
Definition unit_state_consistent (x : unyt_dask_array) : Prop :=
  units x = ua.units (_unyt_quantity x)
  /\ unyt_name x = ua.name (_unyt_quantity x).

(** The instance dictionary is the one [__new__] filled. *)
Definition dict_from_new (x : unyt_dask_array) : Prop :=
  exists q0, __dict__ x = conversion_dict q0.

(** ** The operations that hand out arrays *)

(** Every way the module offers to obtain a value: the constructor and the
    wrapping constructor, the hooks, and attribute access followed by a
    call. *)
Inductive operation : Type :=
| op_new (dask_graph : Array) (units : option ua.Unit) (unyt_name : option string)
| op_from_dask (dask_array : pyval) (units : option ua.Unit)
               (unyt_name : option string)
| op_hook (h : hook) (args : list pyval) (kw : kwargs)
| op_method (self : unyt_dask_array) (name : string) (args : list pyval)
            (kw : kwargs).

Definition run (o : operation) : M pyval :=
  match o with
  | op_new d u n => y <- __new__ d u n ;; ret (VInst y)
  | op_from_dask d u n => y <- unyt_from_dask d u n ;; ret (VInst y)
  | op_hook h args kw => intercept h args kw
  | op_method self name args kw => call_method self name args kw
  end.

(** The sidecar of [y] was created between the states [s] and [s']. *)
Definition fresh_sidecar (s : state) (y : unyt_dask_array) (s' : state) : Prop :=
  next_id s <= ua.id (_unyt_quantity y) < next_id s'.

(** A realized value that is a single value: a numpy scalar or an array
    without axes. *)
Definition zero_dimensional (r : raw) : Prop :=
  match r with
  | npscalar _ => True
  | ndarray shape _ => shape = []
  end.

Definition is_unyt_quantity (c : concrete) : Prop :=
  match c with
  | unyt_quantity_of _ _ => True
  | unyt_array_of _ _ => False
  end.

(** More arrays for the examples: an array without axes, and a second
    grid. *)
Definition point : Array := from_array (ndarray [] [Fin 5]).
Definition p_m : unyt_dask_array := fresh_instance point ua.m 0.

Definition grid' : Array :=
  from_array (ndarray [2; 2] [Fin 0; Fin 1; Fin 1; Fin 1]).
Definition z_m : unyt_dask_array := fresh_instance grid' ua.m 2.

(** [x.to(u).to(u0)] as a program. *)
Definition round_trip (x : unyt_dask_array) (u u0 : ua.Unit) : M pyval :=
  y <- call_method x "to" [VUnit u] [] ;;
  match y with
  | VInst y => call_method y "to" [VUnit u0] []
  | _ => raise TypeError
  end.

(** ** What a call may do to the state *)

(** [s'] comes after [s]: identities are only handed out, the engine's
    nodes are only added to, and every instance whose unit state has been
    assigned to since [s] was created after [s]. *)
Definition extends (s s' : state) : Prop :=
  next_id s <= next_id s'
  /\ (exists more, built s' = (more ++ built s)%list)
  /\ (forall i, In i (assigned s') -> In i (assigned s) \/ next_id s <= i).

(** A computation that only ever moves the state forward, whether it
    returns or raises. *)
Definition frames {A} (c : M A) : Prop := forall s, extends s (snd (c s)).

Definition frames_callable (f : callable) : Prop :=
  forall args kw, frames (f args kw).

(** A named array for the examples: [unyt_from_dask(grid, m, unyt_name="depth")]. *)
Definition named_m : unyt_dask_array :=
  let q := ua.mk_quantity 1 (Fin 1) ua.m (Some "depth") in
  mk_array 0 grid q ua.m (Some "depth") (conversion_dict q).

(** ** The textual representation *)

(** [s.replace(old, new)] of Python for a pattern [old] that is not empty:
    the occurrences of [old] are replaced from the left and do not
    overlap.  [skip] counts the characters of a matched occurrence that
    are still to be dropped. *)
Fixpoint replace_from (skip : nat) (old new s : string) : string :=
  match s with
  | EmptyString => EmptyString
  | String c s' =>
      match skip with
      | S k => replace_from k old new s'
      | O =>
          if prefix old s
          then new ++ replace_from (String.length old - 1) old new s'
          else String c (replace_from 0 old new s')
      end
  end.

Definition replace (old new s : string) : string := replace_from 0 old new s.

(** Whether [old] occurs in [s]. *)
Fixpoint occurs (old s : string) : bool :=
  match s with
  | EmptyString => prefix old s
  | String _ s' => prefix old s || occurs old s'
  end.

(** [unyt_dask_array.__repr__]; [super_repr] is what [super().__repr__()]
    returns, the engine's representation of the array, and the unit is
    printed by its expression. *)
Definition __repr__ (super_repr : string) (self : unyt_dask_array) : string :=
  let disp_str := replace "dask.array" "unyt_dask_array" super_repr in
  let units_str := ", units=" ++ ua.expr (units self) ++ ">" in
  replace ">" units_str disp_str.

(** ** A three-operand function for the examples *)

Definition fmin (a b : fval) : fval :=
  match a, b with
  | Fin x, Fin y => if Qle_bool x y then a else b
  | _, _ => NaN
  end.

Definition fmax (a b : fval) : fval :=
  match a, b with
  | Fin x, Fin y => if Qle_bool x y then b else a
  | _, _ => NaN
  end.

(** Modelled from the spec: [clip(a, lo, hi)] of the unit library on
    quantities.  It is dimension-checked like an addition: the bounds
    must have the dimensions of [a], and the result is in the unit of
    [a]. *)
Definition np_clip : ufunc :=
  mk_ufunc "clip"
    (fun args _ =>
       match args with
       | [VQuantity a; VQuantity lo; VQuantity hi] =>
           if ua.dims_eqb (ua.dimensions (ua.units a)) (ua.dimensions (ua.units lo))
              && ua.dims_eqb (ua.dimensions (ua.units a)) (ua.dimensions (ua.units hi))
           then Ok (unyt_quantity.quantity
                      (fmax (fmul (ua.value lo)
                                  (ua.conversion_factor (ua.units lo) (ua.units a)))
                            (fmin (ua.value a)
                                  (fmul (ua.value hi)
                                        (ua.conversion_factor (ua.units hi)
                                                              (ua.units a)))))
                      (ua.units a) None)
           else Raise UnitOperationError
       | _ => Raise TypeError
       end).

(** A third array, in seconds, created after [x_m] and [y_cm]. *)
Definition t_s : unyt_dask_array := fresh_instance grid ua.s 4.
Definition s4 : state := mkState 6 [] [].
(** * Properties *)

(** ** The unit library *)

Lemma dims_eqb_refl (a : list Z) : ua.dims_eqb a a = true.
Proof.
  unfold ua.dims_eqb. induction a as [|x a IH]; [reflexivity|].
  cbn. rewrite Z.sub_diag. exact IH.
Qed.

Lemma unit_eqb_refl (u : ua.Unit) : ua.eqb u u = true.
Proof.
  unfold ua.eqb. rewrite dims_eqb_refl, andb_true_r.
  apply Qeq_bool_iff. reflexivity.
Qed.

Lemma Qltb_false_le (a b : Q) : Qltb a b = false -> (b <= a)%Q.
Proof.
  unfold Qltb. intros H. apply negb_false_iff in H. now apply Qle_bool_iff.
Qed.

Lemma Qltb_true_le (a b : Q) : Qltb a b = true -> (a <= b)%Q.
Proof.
  unfold Qltb. intros H. apply negb_true_iff in H.
  apply Qlt_le_weak. apply Qnot_le_lt. intros C.
  apply Qle_bool_iff in C. congruence.
Qed.

(** ** Conversions *)

Lemma mul_by_number to a f kw s :
  _special_dec to "__mul__" [VInst a; VNum f] kw s =
  (let n := next_id s in
   let nd := node "__mul__" [dask a; const f] kw in
   let q := ua.mk_quantity n (fmul (ua.value (_unyt_quantity a)) f)
                           (ua.units (_unyt_quantity a)) None in
   (Ok (VInst (mk_array (S n) nd q (ua.units q) None
                 (conversion_dict
                    (ua.mk_quantity (S (S n)) (Fin 1) ua.dimensionless None)))),
    mkState (3 + n) (nd :: built s) (S n :: assigned s))).
Proof. reflexivity. Qed.

Lemma track_conversion_ok to name x args kw s v u :
  unyt_quantity.conversion name (_unyt_quantity x) args kw = Ok (v, u) ->
  _track_conversion to name x args kw s =
  (Ok (VInst (converted x v u (next_id s))), after_conversion x v u s).
Proof.
  intros H. unfold _track_conversion, bind, lift. rewrite H. reflexivity.
Qed.

Lemma track_conversion_raise to name x args kw s e :
  unyt_quantity.conversion name (_unyt_quantity x) args kw = Raise e ->
  _track_conversion to name x args kw s = (Raise e, s).
Proof.
  intros H. unfold _track_conversion, bind, lift. rewrite H. reflexivity.
Qed.

Lemma conversion_to q u kw :
  unyt_quantity.conversion "to" q [VUnit u] kw
  = ua.convert (ua.value q) (ua.units q) u.
Proof. reflexivity. Qed.

Lemma dot_to_instance a u :
  dot_to (VInst a) u = _track_conversion (method_to 999) "to" a [VUnit u] [].
Proof. reflexivity. Qed.

Lemma dot_to_quantity q u :
  dot_to (VQuantity q) u = bound_call (mk_bound q "to") [VUnit u] [].
Proof. reflexivity. Qed.

Lemma dot_to_ok obj u0 u s :
  getattr_units (_extract_unyt obj) = Some u0 ->
  ua.dims_eqb (ua.dimensions u0) (ua.dimensions u) = true ->
  dot_to obj u s = (Ok (fst (to_value obj u s)), snd (to_value obj u s)).
Proof.
  intros Hu Hd. destruct obj as [a|d|q|w|x|b]; try discriminate; cbn in Hu;
    injection Hu as <-.
  - rewrite dot_to_instance.
    erewrite track_conversion_ok; [reflexivity|].
    rewrite conversion_to. unfold ua.convert. rewrite Hd. reflexivity.
  - rewrite dot_to_quantity. unfold bound_call, bind, lift. cbn [im_name im_self].
    rewrite conversion_to. unfold ua.convert. rewrite Hd. reflexivity.
Qed.

Lemma to_value_units obj u0 u s :
  getattr_units (_extract_unyt obj) = Some u0 ->
  getattr_units (_extract_unyt (fst (to_value obj u s))) = Some u.
Proof.
  destruct obj; try discriminate; reflexivity.
Qed.

Lemma to_value_assigned obj u s i :
  In i (assigned (snd (to_value obj u s))) ->
  In i (assigned s) \/ next_id s <= i.
Proof.
  destruct obj; cbn; intros H; auto.
  destruct H as [<-|H]; [right; lia|auto].
Qed.

Lemma zero_sub_sym (x y : Z) : (0 =? x - y)%Z = (0 =? y - x)%Z.
Proof.
  destruct (Z.eqb_spec 0 (x - y)), (Z.eqb_spec 0 (y - x)); auto; lia.
Qed.

Lemma dims_eqb_sym (a b : list Z) : ua.dims_eqb a b = ua.dims_eqb b a.
Proof.
  unfold ua.dims_eqb. revert b.
  induction a as [|x a IH]; intros [|y b]; cbn [ua.dims_zip]; try reflexivity.
  - clear. generalize (y :: b) as l. intros l.
    induction l as [|z l IHl]; [reflexivity|].
    cbn [map forallb]. now rewrite (zero_sub_sym 0 z), IHl.
  - clear. generalize (x :: a) as l. intros l.
    induction l as [|z l IHl]; [reflexivity|].
    cbn [map forallb]. now rewrite (zero_sub_sym z 0), IHl.
  - cbn [forallb]. now rewrite (zero_sub_sym x y), IH.
Qed.

(** ** Operand sanitation *)

Lemma sanitize_reconciles i0 i1 rest s u0 u1 :
  getattr_units (_extract_unyt i0) = Some u0 ->
  getattr_units (_extract_unyt i1) = Some u1 ->
  ua.eqb u0 u1 = false ->
  ua.dims_eqb (ua.dimensions u0) (ua.dimensions u1) = true ->
  _sanitize_unit_args dot_to (i0 :: i1 :: rest) s =
  (Ok (fst (reconciled i0 i1 rest u0 u1 s),
       map _extract_unyt (fst (reconciled i0 i1 rest u0 u1 s))),
   snd (reconciled i0 i1 rest u0 u1 s)).
Proof.
  intros H0 H1 Hne Hd. unfold _sanitize_unit_args, reconciled.
  rewrite H0, H1, Hne, Hd. cbn [negb andb].
  destruct (Qltb (ua.base_value u0) (ua.base_value u1)) eqn:Hlt; unfold bind.
  - rewrite (dot_to_ok i0 u1 s H0 Hd). reflexivity.
  - rewrite dims_eqb_sym in Hd.
    rewrite (dot_to_ok i1 u0 s H1 Hd). reflexivity.
Qed.

Lemma sanitize_untouched to input s :
  reconcilable input = false ->
  _sanitize_unit_args to input s = (Ok (input, map _extract_unyt input), s).
Proof.
  unfold reconcilable, _sanitize_unit_args.
  destruct input as [|i0 [|i1 rest]]; try reflexivity.
  destruct (getattr_units (_extract_unyt i0)); [|reflexivity].
  destruct (getattr_units (_extract_unyt i1)); [|reflexivity].
  intros ->. reflexivity.
Qed.

Lemma prep_after_sanitize to f input ed kw s input' s1 :
  _sanitize_unit_args to input s = (Ok (input', map _extract_unyt input'), s1) ->
  _prep_ufunc to f input ed kw s =
  bind (replay f (map _extract_unyt input') kw)
       (fun unyt_result =>
          ret (map _extract_unyt_val
                   (if ed then map _extract_dask input' else input'),
               unyt_result)) s1.
Proof.
  intros H. unfold _prep_ufunc. unfold bind at 1. rewrite H. reflexivity.
Qed.

Lemma extract_quantity obj u :
  getattr_units (_extract_unyt obj) = Some u ->
  exists q, _extract_unyt obj = VQuantity q /\ ua.units q = u.
Proof.
  destruct obj as [a|d|q|w|x|b]; try discriminate; cbn; intros [= <-]; eauto.
Qed.

Lemma additive_same_unit f q0 q1 :
  ua.units q1 = ua.units q0 ->
  unyt_quantity.additive f (VQuantity q0) (VQuantity q1)
  = Ok (unyt_quantity.quantity (f (ua.value q0) (ua.value q1)) (ua.units q0) None).
Proof.
  intros H. unfold unyt_quantity.additive. cbn. rewrite H.
  now rewrite dims_eqb_refl, unit_eqb_refl.
Qed.

Lemma special_additive to name i0 i1 kw s j0 j1 q0 q1 s1 U :
  In name additive_names ->
  _sanitize_unit_args to [i0; i1] s
  = (Ok ([j0; j1], [VQuantity q0; VQuantity q1]), s1) ->
  ua.units q0 = U -> ua.units q1 = U ->
  exists r s2,
    _special_dec to name [i0; i1] kw s = (Ok (VInst r), s2)
    /\ units r = U /\ ua.units (_unyt_quantity r) = U.
Proof.
  intros Hn Hs H0 H1.
  assert (E01 : ua.units q1 = ua.units q0) by congruence.
  assert (E10 : ua.units q0 = ua.units q1) by congruence.
  unfold _special_dec, _prep_ufunc.
  cbn in Hn.
  destruct Hn as [<-|[<-|[<-|[<-|[]]]]];
    cbn [unyt_quantity.getattr String.eqb Ascii.eqb Bool.eqb lift];
    unfold bind at 1; cbn [lift];
    unfold bind at 1; unfold bind at 1; rewrite Hs;
    unfold replay, bind, lift, unyt_quantity.binary;
    first [rewrite (additive_same_unit _ q0 q1 E01)
          |rewrite (additive_same_unit _ q1 q0 E10)];
    cbn; eexists; eexists; (split; [reflexivity|cbn; split; congruence]).
Qed.


Lemma unyt_from_dask_fresh d u n s :
  unyt_from_dask (VDask d) (Some u) n s
  = (Ok (mk_array (next_id s) d (ua.mk_quantity (S (next_id s)) (Fin 1) u n) u n
           (conversion_dict (ua.mk_quantity (S (next_id s)) (Fin 1) u n))),
     mkState (2 + next_id s) (built s) (assigned s)).
Proof. reflexivity. Qed.

Example examples_are_constructed :
  unyt_from_dask (VDask grid) (Some ua.m) None s0 = (Ok x_m, mkState 2 [] [])
  /\ unyt_from_dask (VDask grid) (Some ua.cm) None (mkState 2 [] []) = (Ok y_cm, s2)
  /\ unyt_from_dask (VDask grid) (Some ua.s) None (mkState 2 [] []) = (Ok y_s, s2)
  /\ unyt_from_dask (VDask grid) (Some ua.m) None (mkState 2 [] []) = (Ok y_m, s2).
Proof. repeat split. Qed.

(** C1 (as amended).  When the first two extracted operands carry
    different units of equal dimensions, sanitation converts the operand
    whose unit has the smaller [base_value] to the unit of the other (the
    second operand when the two values are equal), by calling its [to]
    method; the replay of every operation then sees both operands in that
    unit [U], and it happens on the state sanitation left, before anything
    is delegated.  The only instance whose unit state is assigned to during
    sanitation is one created by it.  For addition and subtraction and
    their reflected forms the result carries the unit [U]. *)
Theorem sanitation_converts_to_larger_base
        (i0 i1 : pyval) (rest : list pyval) (s : state) (u0 u1 : ua.Unit) :
  getattr_units (_extract_unyt i0) = Some u0 ->
  getattr_units (_extract_unyt i1) = Some u1 ->
  ua.eqb u0 u1 = false ->
  ua.dims_eqb (ua.dimensions u0) (ua.dimensions u1) = true ->
  let smaller_first := Qltb (ua.base_value u0) (ua.base_value u1) in
  let U := if smaller_first then u1 else u0 in
  exists (c : pyval) (s1 : state),
    (if smaller_first then dot_to i0 u1 s else dot_to i1 u0 s) = (Ok c, s1)
    /\ let input' := if smaller_first then c :: i1 :: rest else i0 :: c :: rest in
       _sanitize_unit_args dot_to (i0 :: i1 :: rest) s
       = (Ok (input', map _extract_unyt input'), s1)
       /\ getattr_units (_extract_unyt (nth 0 input' i0)) = Some U
       /\ getattr_units (_extract_unyt (nth 1 input' i0)) = Some U
       /\ (ua.base_value u0 <= ua.base_value U)%Q
       /\ (ua.base_value u1 <= ua.base_value U)%Q
       /\ (forall f extract_dask kw,
              _prep_ufunc dot_to f (i0 :: i1 :: rest) extract_dask kw s
              = bind (replay f (map _extract_unyt input') kw)
                     (fun unyt_result =>
                        ret (map _extract_unyt_val
                               (if extract_dask then map _extract_dask input'
                                else input'),
                             unyt_result)) s1)
       /\ (forall i, In i (assigned s1) -> In i (assigned s) \/ next_id s <= i)
       /\ (rest = [] ->
           forall name kw, In name additive_names ->
             exists r s2,
               _special_dec dot_to name [i0; i1] kw s = (Ok (VInst r), s2)
               /\ units r = U
               /\ ua.units (_unyt_quantity r) = U).
Proof.
  intros H0 H1 Hne Hd smaller_first U.
  pose proof (sanitize_reconciles i0 i1 rest s H0 H1 Hne Hd) as Hs.
  assert (Hd' : ua.dims_eqb (ua.dimensions u1) (ua.dimensions u0) = true)
    by (now rewrite dims_eqb_sym).
  unfold reconciled in Hs. subst U smaller_first.
  destruct (Qltb (ua.base_value u0) (ua.base_value u1)) eqn:Hlt; cbn [fst snd] in Hs.
  - exists (fst (to_value i0 u1 s)), (snd (to_value i0 u1 s)).
    split; [now apply dot_to_ok with (u0 := u0)|]. cbn zeta.
    split; [exact Hs|]. cbn [nth].
    split; [now apply to_value_units with (u0 := u0)|].
    split; [exact H1|].
    split; [now apply Qltb_true_le|].
    split; [apply Qle_refl|].
    split; [intros; now apply prep_after_sanitize|].
    split; [apply to_value_assigned|].
    intros -> name kw Hn.
    destruct (extract_quantity i1 H1) as (q1 & E1 & U1).
    destruct (extract_quantity (fst (to_value i0 u1 s))
                (to_value_units i0 u1 s H0)) as (q0 & E0 & U0).
    cbn [map] in Hs. rewrite E0, E1 in Hs.
    now apply special_additive with (3 := U0) (4 := U1) (2 := Hs).
  - exists (fst (to_value i1 u0 s)), (snd (to_value i1 u0 s)).
    split; [now apply dot_to_ok with (u0 := u1)|]. cbn zeta.
    split; [exact Hs|]. cbn [nth].
    split; [exact H0|].
    split; [now apply to_value_units with (u0 := u1)|].
    split; [apply Qle_refl|].
    split; [now apply Qltb_false_le|].
    split; [intros; now apply prep_after_sanitize|].
    split; [apply to_value_assigned|].
    intros -> name kw Hn.
    destruct (extract_quantity i0 H0) as (q0 & E0 & U0).
    destruct (extract_quantity (fst (to_value i1 u0 s))
                (to_value_units i1 u0 s H1)) as (q1 & E1 & U1).
    cbn [map] in Hs. rewrite E0, E1 in Hs.
    now apply special_additive with (3 := U0) (4 := U1) (2 := Hs).
Qed.

(** [x + y] with [x] in metres and [y] in centimetres: [y] is converted and
    the sum is in metres. *)
Lemma sanitation_converts_to_larger_base_witness :
  exists r s',
    _special_dec dot_to "__add__" [VInst x_m; VInst y_cm] [] s2 = (Ok (VInst r), s')
    /\ units r = ua.m.
Proof.
  destruct (@sanitation_converts_to_larger_base
              (VInst x_m) (VInst y_cm) [] s2 ua.m ua.cm
              eq_refl eq_refl eq_refl eq_refl)
    as (c & s1 & _ & _ & _ & _ & _ & _ & _ & _ & Hadd).
  destruct (Hadd eq_refl "__add__" [] (or_introl eq_refl)) as (r & s' & Hr & Hu & _).
  exists r, s'. split; [exact Hr|exact Hu].
Defined.

(** C1 (as stated) fails for a product: with [x] in metres and [y] in
    centimetres, [x * y] has the unit [m*m], which is not the unit of
    either operand. *)
Lemma product_unit_is_not_an_operand_unit :
  ua.eqb (units x_m) (units y_cm) = false
  /\ ua.dims_eqb (ua.dimensions (units x_m)) (ua.dimensions (units y_cm)) = true
  /\ exists r s',
      _special_dec dot_to "__mul__" [VInst x_m; VInst y_cm] [] s2 = (Ok (VInst r), s')
      /\ units r = ua.mul ua.m ua.m
      /\ ua.eqb (units r) (units x_m) = false
      /\ ua.eqb (units r) (units y_cm) = false.
Proof.
  split; [reflexivity|]. split; [reflexivity|].
  eexists. eexists. split; [vm_compute; reflexivity|].
  split; [reflexivity|]. split; reflexivity.
Qed.

(** ** The interception hooks *)

Lemma intercept_unfold h f args kw s :
  replayed h = Ok f ->
  intercept h args kw s =
  bind (_prep_ufunc dot_to f args (strips h) kw)
       (fun '(newargs, unyt_result) =>
          _post_ufunc (fun a k s' => (Ok (VDask (delegated h a k)),
                                      with_node (delegated h a k) s'))
                      unyt_result newargs kw) s.
Proof.
  destruct h; cbn [replayed intercept strips]; intros Hf.
  - injection Hf as <-. reflexivity.
  - injection Hf as <-. reflexivity.
  - injection Hf as <-. unfold __array_function__, bind.
    destruct (_prep_ufunc dot_to (__call__ func) args true kw s) as [[[na ur]|e] s1];
      reflexivity.
  - unfold _special_dec, bind at 1, lift. rewrite Hf. unfold bind.
    destruct (_prep_ufunc dot_to f args true kw s) as [[[na ur]|e] s1];
      [|reflexivity].
    destruct ur; reflexivity.
Qed.

Lemma prep_replay_raises to f input ed kw s e :
  reconcilable input = false ->
  f (map _extract_unyt input) kw = Raise e ->
  _prep_ufunc to f input ed kw s = (Raise e, s).
Proof.
  intros Hr Hf.
  erewrite prep_after_sanitize by (now apply sanitize_untouched).
  unfold bind, replay, lift. rewrite Hf. reflexivity.
Qed.

Lemma to_value_creates obj u0 u s :
  getattr_units (_extract_unyt obj) = Some u0 ->
  next_id s < next_id (snd (to_value obj u s)).
Proof. destruct obj; try discriminate; cbn; lia. Qed.

Lemma sanitize_total input s :
  exists input' s',
    _sanitize_unit_args dot_to input s
    = (Ok (input', map _extract_unyt input'), s')
    /\ List.length input' = List.length input
    /\ skipn 2 input' = skipn 2 input
    /\ (reconcilable input = false -> input' = input /\ s' = s)
    /\ (reconcilable input = true -> next_id s < next_id s').
Proof.
  destruct (reconcilable input) eqn:Hr.
  - unfold reconcilable in Hr. destruct input as [|i0 [|i1 rest]]; try discriminate.
    destruct (getattr_units (_extract_unyt i0)) as [u0|] eqn:H0; [|discriminate].
    destruct (getattr_units (_extract_unyt i1)) as [u1|] eqn:H1; [|discriminate].
    apply andb_true_iff in Hr as [Hne Hd]. apply negb_true_iff in Hne.
    rewrite (sanitize_reconciles i0 i1 rest s H0 H1 Hne Hd).
    unfold reconciled.
    destruct (Qltb _ _); cbn [fst snd]; eexists; eexists;
      (split; [reflexivity|]); (split; [reflexivity|]);
      (split; [reflexivity|]); (split; [discriminate|]); intros _;
      eapply to_value_creates; eassumption.
  - rewrite sanitize_untouched by exact Hr.
    exists input, s. repeat split; auto. discriminate.
Qed.

Lemma sanitize_built input s input' ui sa :
  _sanitize_unit_args dot_to input s = (Ok (input', ui), sa) ->
  assigned sa = assigned s /\ built sa = built s
  \/ exists x fac,
      In (VInst x) (firstn 2 input)
      /\ built sa = node "__mul__" [dask x; const fac] [] :: built s.
Proof.
  destruct (reconcilable input) eqn:Hr.
  - unfold reconcilable in Hr. destruct input as [|i0 [|i1 rest]]; try discriminate.
    destruct (getattr_units (_extract_unyt i0)) as [u0|] eqn:H0; [|discriminate].
    destruct (getattr_units (_extract_unyt i1)) as [u1|] eqn:H1; [|discriminate].
    apply andb_true_iff in Hr as [Hne Hd]. apply negb_true_iff in Hne.
    rewrite (sanitize_reconciles i0 i1 rest s H0 H1 Hne Hd).
    intros [= _ _ <-]. unfold reconciled. cbn [firstn].
    destruct (Qltb _ _); cbn [snd].
    + destruct i0; try discriminate; cbn; [right|left; auto].
      eexists. eexists. split; [left; reflexivity|reflexivity].
    + destruct i1; try discriminate; cbn; [right|left; auto].
      eexists. eexists. split; [right; left; reflexivity|reflexivity].
  - rewrite sanitize_untouched by exact Hr. intros [= _ _ <-]. auto.
Qed.

Lemma replay_built f ui kw s r s1 :
  replay f ui kw s = (r, s1) -> built s1 = built s.
Proof.
  unfold replay, bind, lift. destruct (f ui kw) as [[v u n|x|b]|e]; cbn;
    intros [= _ <-]; reflexivity.
Qed.

(** C2 (as amended).  Every hook sanitizes the operands, then replays the
    operation on the sidecar values, and only then turns to the engine.
    When the unit library rejects the replay, the hook fails with the
    error of the library in the state sanitation left: the operation is
    not delegated and no node is built for it.  If the first two operands
    needed no reconciliation, sanitation has changed nothing, so nothing
    at all has been built; if they did, the one thing that can have been
    built is the multiplication node of the conversion of a unit-bearing
    array among the first two operands. *)
Theorem rejected_replay_precedes_delegation
        (h : hook) (f : unyt_quantity.method) (input : list pyval)
        (kw : kwargs) (s : state) :
  replayed h = Ok f ->
  exists input' sa,
    _sanitize_unit_args dot_to input s
    = (Ok (input', map _extract_unyt input'), sa)
    /\ (reconcilable input = false -> input' = input /\ sa = s)
    /\ (built sa = built s
        \/ exists x fac,
            reconcilable input = true
            /\ In (VInst x) (firstn 2 input)
            /\ built sa = node "__mul__" [dask x; const fac] [] :: built s)
    /\ (forall e,
           f (map _extract_unyt input') kw = Raise e ->
           intercept h input kw s = (Raise e, sa)).
Proof.
  intros Hh.
  destruct (sanitize_total input s) as (input' & sa & Hs & _ & _ & Hun & _).
  exists input', sa. split; [exact Hs|]. split; [exact Hun|]. split.
  - destruct (reconcilable input) eqn:Hr.
    + destruct (@sanitize_built _ _ _ _ _ Hs) as [[_ E]|(x & fac & Hin & E)];
        [now left|right; eauto].
    + left. now destruct (Hun eq_refl) as [_ ->].
  - intros e Hf.
    rewrite intercept_unfold with (f := f) by exact Hh.
    unfold bind at 1. erewrite prep_after_sanitize by exact Hs.
    unfold bind, replay, lift. rewrite Hf. reflexivity.
Qed.

(** [x + y] with [x] in metres and [y] in seconds fails and builds
    nothing; clipping metres between centimetres and seconds fails after
    the centimetres have been converted. *)
Lemma rejected_replay_precedes_delegation_witness :
  intercept (hook_special "__add__") [VInst x_m; VInst y_s] [] s2
  = (Raise UnitOperationError, s2)
  /\ intercept (hook_array_function x_m np_clip [])
               [VInst x_m; VInst y_cm; VInst t_s] [] s4
     = (Raise UnitOperationError,
        mkState 12 [node "__mul__" [grid; const (Fin (1 # 100))] []] [8]).
Proof.
  split.
  - destruct (@rejected_replay_precedes_delegation
                (hook_special "__add__")
                (unyt_quantity.binary (unyt_quantity.additive fadd) false)
                [VInst x_m; VInst y_s] [] s2 eq_refl)
      as (input' & sa & _ & Hun & _ & Hr).
    destruct (Hun eq_refl) as [-> ->].
    exact (Hr UnitOperationError eq_refl).
  - destruct (@rejected_replay_precedes_delegation
                (hook_array_function x_m np_clip []) (__call__ np_clip)
                [VInst x_m; VInst y_cm; VInst t_s] [] s4 eq_refl)
      as (input' & sa & Hs & _ & _ & Hr).
    vm_compute in Hs. injection Hs as Hi _ Hsa. subst input' sa.
    exact (Hr UnitOperationError eq_refl).
Defined.

(** C2 (as stated) fails in two ways.  Metres and seconds are
    dimensionally incompatible, yet [x * y] does not fail: the engine
    builds the node of the product.  And clipping metres between
    centimetres and seconds does fail, but not before the engine has built
    a node: the conversion of the centimetres. *)
Lemma incompatible_operands_may_succeed_or_leave_a_node :
  (ua.dims_eqb (ua.dimensions (units x_m)) (ua.dimensions (units y_s)) = false
   /\ exists r s',
       intercept (hook_special "__mul__") [VInst x_m; VInst y_s] [] s2
       = (Ok (VInst r), s')
       /\ units r = ua.mul ua.m ua.s
       /\ built s' = [node "__mul__" [grid; grid] []])
  /\ (ua.dims_eqb (ua.dimensions (units y_cm)) (ua.dimensions (units t_s)) = false
      /\ exists s',
          intercept (hook_array_function x_m np_clip [])
                    [VInst x_m; VInst y_cm; VInst t_s] [] s4
          = (Raise UnitOperationError, s')
          /\ built s' = [node "__mul__" [grid; const (Fin (1 # 100))] []]
          /\ built s4 = []).
Proof.
  split.
  - split; [reflexivity|].
    eexists. eexists. split; [vm_compute; reflexivity|].
    split; reflexivity.
  - split; [reflexivity|].
    eexists. split; [vm_compute; reflexivity|].
    split; reflexivity.
Qed.

Lemma create_with_quantity_dask d q s :
  _create_with_quantity (VDask d) q s =
  (Ok (mk_array (next_id s) d q (ua.units q) (ua.name q)
         (conversion_dict
            (ua.mk_quantity (S (next_id s)) (Fin 1) ua.dimensionless None))),
   mkState (2 + next_id s) (built s) (next_id s :: assigned s)).
Proof. reflexivity. Qed.

(** C8.  Whatever the hook, once the operands are sanitized and the
    operation is replayed on the sidecars: a replayed result without a
    [units] attribute makes the hook return the engine's result itself; a
    replayed result [q] that has one makes the hook return an instance
    around the engine's result whose sidecar is [q] and whose unit and
    name are those of [q]. *)
Theorem rewrap_only_when_result_has_units
        (h : hook) (f : unyt_quantity.method) (args : list pyval) (kw : kwargs)
        (s : state) (newargs : list pyval) (unyt_result : unyt_result)
        (s1 : state) :
  replayed h = Ok f ->
  _prep_ufunc dot_to f args (strips h) kw s = (Ok (newargs, unyt_result), s1) ->
  match unyt_result with
  | no_units _ =>
      intercept h args kw s
      = (Ok (VDask (delegated h newargs kw)),
         with_node (delegated h newargs kw) s1)
  | has_units q =>
      exists y s2,
        intercept h args kw s = (Ok (VInst y), s2)
        /\ dask y = delegated h newargs kw
        /\ _unyt_quantity y = q
        /\ units y = ua.units q
        /\ unyt_name y = ua.name q
  end.
Proof.
  intros Hh Hp.
  pose proof (intercept_unfold h args kw s Hh) as Hi.
  unfold bind at 1 in Hi. rewrite Hp in Hi. unfold _post_ufunc, bind in Hi.
  destruct unyt_result as [q|p]; [|exact Hi].
  rewrite create_with_quantity_dask in Hi.
  eexists. eexists. split; [exact Hi|]. repeat split.
Qed.

(** [x > y] through the ufunc hook returns the plain engine result, and
    [x + y] returns an array in metres. *)
Lemma rewrap_only_when_result_has_units_witness :
  intercept (hook_array_ufunc x_m np_greater "__call__")
            [VInst x_m; VInst y_m] [] s2
  = (Ok (VDask (node "__array_ufunc__"
                     [other "greater"; other "__call__"; grid; grid] [])),
     with_node (node "__array_ufunc__"
                     [other "greater"; other "__call__"; grid; grid] []) s2)
  /\ exists y s',
      intercept (hook_array_ufunc x_m np_add "__call__")
                [VInst x_m; VInst y_m] [] s2 = (Ok (VInst y), s')
      /\ units y = ua.m.
Proof.
  split.
  - apply (@rewrap_only_when_result_has_units
             (hook_array_ufunc x_m np_greater "__call__") (__call__ np_greater)
             [VInst x_m; VInst y_m] [] s2 [VDask grid; VDask grid]
             (no_units (VBool false)) s2); reflexivity.
  - destruct (@rewrap_only_when_result_has_units
             (hook_array_ufunc x_m np_add "__call__") (__call__ np_add)
             [VInst x_m; VInst y_m] [] s2 [VDask grid; VDask grid]
             (has_units (ua.mk_quantity 4 (Fin 2) ua.m None))
             (mkState 5 [] []) eq_refl eq_refl)
      as (y & s' & Hy & _ & _ & Hu & _).
    exists y, s'. split; [exact Hy|exact Hu].
Defined.

(** ** Unit conversions *)

Lemma call_conversion x name args kw :
  In name _unyt_funcs_to_track ->
  __getattribute__ dot_to x name = Ok (method (_track_conversion dot_to name x))
  /\ call_method x name args kw = _track_conversion dot_to name x args kw.
Proof.
  intros Hin. cbn in Hin. unfold call_method.
  destruct Hin as [<-|[<-|[<-|[<-|[<-|[]]]]]]; split; reflexivity.
Qed.

(** C3.  For each of the five conversions, when the conversion of the
    sidecar yields the magnitude [v] and the unit [u], the call returns a
    new instance whose graph is the graph of [x] multiplied by the factor
    [v / init_val], where [init_val] is the magnitude of the sidecar of
    [x]; its unit is [u] and its sidecar has magnitude 1 in the unit [u].
    The call assigns to the unit state of no instance that existed before
    it. *)
Theorem conversion_multiplies_by_factor
        (name : string) (x : unyt_dask_array) (args : list pyval) (kw : kwargs)
        (s : state) (v : fval) (u : ua.Unit) :
  In name _unyt_funcs_to_track ->
  unyt_quantity.conversion name (_unyt_quantity x) args kw = Ok (v, u) ->
  let factor := fdiv v (ua.value (_unyt_quantity x)) in
  exists y s',
    call_method x name args kw s = (Ok (VInst y), s')
    /\ dask y = node "__mul__" [to_dask x; const factor] []
    /\ units y = u
    /\ ua.units (_unyt_quantity y) = u
    /\ ua.value (_unyt_quantity y) = Fin 1
    /\ next_id s <= self_id y
    /\ next_id s <= ua.id (_unyt_quantity y)
    /\ (forall i, In i (assigned s') -> In i (assigned s) \/ next_id s <= i).
Proof.
  intros Hin Hc factor.
  destruct (call_conversion x args kw Hin) as [_ ->].
  rewrite track_conversion_ok with (v := v) (u := u) by exact Hc.
  eexists. eexists. split; [reflexivity|].
  cbn. repeat split; try lia.
  intros i [<-|Hi]; [right; lia|now left].
Qed.

(** [x.to(cm)] for [x] in metres multiplies the graph by 100. *)
Lemma conversion_multiplies_by_factor_witness :
  exists y s',
    call_method x_m "to" [VUnit ua.cm] [] s2 = (Ok (VInst y), s')
    /\ dask y = node "__mul__" [grid; const (Fin 100)] []
    /\ units y = ua.cm.
Proof.
  destruct (@conversion_multiplies_by_factor
              "to" x_m [VUnit ua.cm] [] s2 (Fin 100) ua.cm
              (or_introl eq_refl) eq_refl)
    as (y & s' & Hy & Hd & Hu & _).
  exists y, s'. repeat split; assumption.
Defined.

(** The example of the specification: [[1, 2], [3, 4]] in metres is
    [[100, 200], [300, 400]] in centimetres. *)
Example to_cm_materialized :
  exists y s',
    call_method x_m "to" [VUnit ua.cm] [] s2 = (Ok (VInst y), s')
    /\ compute y
       = Some (unyt_array_of
                 (ndarray [2; 2] [Fin 100; Fin 200; Fin 300; Fin 400]) ua.cm).
Proof.
  eexists. eexists. split; [vm_compute; reflexivity|reflexivity].
Qed.

(** C10.  For each of the five conversion names, attribute access returns
    the wrapper made by [_track_conversion] for that name and that
    instance; calling it either raises or returns a new unit-bearing
    array.  The method of the sidecar that [__new__] stored under the name
    is in the dictionary of the instance, and calling that one never
    returns an array; [__getattribute__] does not hand it out. *)
Theorem conversion_attribute_is_the_tracking_wrapper
        (x : unyt_dask_array) (name : string) :
  In name _unyt_funcs_to_track ->
  __getattribute__ dot_to x name = Ok (method (_track_conversion dot_to name x))
  /\ (forall args kw s,
         match fst (call_method x name args kw s) with
         | Ok (VInst y) => next_id s <= self_id y
         | Ok _ => False
         | Raise _ => True
         end)
  /\ (forall q0, __dict__ x = conversion_dict q0 ->
        object_getattribute x name = Ok (method (bound_call (mk_bound q0 name))))
  /\ (forall q0 args kw s,
         match fst (bound_call (mk_bound q0 name) args kw s) with
         | Ok (VQuantity _) => True
         | Ok _ => False
         | Raise _ => True
         end).
Proof.
  intros Hin. split; [apply (call_conversion x [] [] Hin)|].
  split; [|split].
  - intros args kw s. destruct (call_conversion x args kw Hin) as [_ ->].
    destruct (unyt_quantity.conversion name (_unyt_quantity x) args kw)
      as [[v u]|e] eqn:Hc.
    + rewrite track_conversion_ok with (v := v) (u := u) by exact Hc. cbn. lia.
    + rewrite track_conversion_raise with (e := e) by exact Hc. exact I.
  - intros q0 Hd. unfold object_getattribute. rewrite Hd. cbn in Hin.
    destruct Hin as [<-|[<-|[<-|[<-|[<-|[]]]]]]; reflexivity.
  - intros q0 args kw s. unfold bound_call, bind, lift. cbn [im_name im_self].
    destruct (unyt_quantity.conversion name q0 args kw) as [[v u]|e]; exact I.
Qed.

(** [x.to] on an array in metres. *)
Lemma conversion_attribute_is_the_tracking_wrapper_witness :
  __getattribute__ dot_to x_m "to" = Ok (method (_track_conversion dot_to "to" x_m)).
Proof.
  exact (proj1 (@conversion_attribute_is_the_tracking_wrapper
                  x_m "to" (or_introl eq_refl))).
Defined.

(** ** Simple operations *)

Lemma getattribute_simple x name :
  dict_from_new x ->
  In name _use_simple_decorator ->
  __getattribute__ dot_to x name
  = Ok (method (_simple_dask_decorator
                  (fun args kw => Array_.getattr name (VInst x :: args) kw) x)).
Proof.
  intros [q0 Hd] Hin. unfold __getattribute__, object_getattribute.
  rewrite Hd. cbn in Hin.
  repeat (destruct Hin as [<-|Hin]; [reflexivity|]). destruct Hin.
Qed.

Lemma call_simple x name args kw s :
  dict_from_new x ->
  In name _use_simple_decorator ->
  call_method x name args kw s =
  (let nd := node name (dask x :: map graph_of args) kw in
   let q := _unyt_quantity x in
   (Ok (VInst (mk_array (next_id s) nd q (ua.units q) (ua.name q)
                 (conversion_dict
                    (ua.mk_quantity (S (next_id s)) (Fin 1) ua.dimensionless None)))),
    mkState (2 + next_id s) (nd :: built s) (next_id s :: assigned s))).
Proof.
  intros Hd Hin. unfold call_method.
  rewrite (getattribute_simple Hd Hin). reflexivity.
Qed.

(** C5.  For each name of the allow-list, calling the attribute of an
    instance returns a new instance around the engine's result, and the
    unit of that instance is the unit of the instance the attribute was
    taken from. *)
Theorem simple_operations_keep_the_unit
        (x : unyt_dask_array) (name : string) (args : list pyval) (kw : kwargs)
        (s : state) :
  In name _use_simple_decorator ->
  unit_state_consistent x ->
  dict_from_new x ->
  exists y s',
    call_method x name args kw s = (Ok (VInst y), s')
    /\ dask y = node name (dask x :: map graph_of args) kw
    /\ units y = units x
    /\ ua.units (_unyt_quantity y) = units x
    /\ unyt_name y = unyt_name x.
Proof.
  intros Hin [Hu Hn] Hd.
  rewrite (call_simple args kw s Hd Hin).
  eexists. eexists. split; [reflexivity|]. cbn.
  repeat split; congruence.
Qed.

(** [x.reshape()] and [x.sum()] on an array in metres. *)
Lemma simple_operations_keep_the_unit_witness :
  (exists y s', call_method x_m "reshape" [] [] s2 = (Ok (VInst y), s')
                /\ units y = ua.m)
  /\ (exists y s', call_method x_m "sum" [] [] s2 = (Ok (VInst y), s')
                   /\ units y = ua.m).
Proof.
  assert (Hc : unit_state_consistent x_m) by (split; reflexivity).
  assert (Hd : dict_from_new x_m) by (eexists; reflexivity).
  split.
  - destruct (@simple_operations_keep_the_unit x_m "reshape" [] [] s2
                (or_intror (or_intror (or_intror (or_intror (or_intror (or_intror
                 (or_intror (or_intror (or_intror (or_intror (or_intror (or_intror
                 (or_intror (or_intror (or_intror (or_intror
                 (or_introl eq_refl)))))))))))))))))
                Hc Hd)
      as (y & s' & Hy & _ & Hu & _).
    exists y, s'. split; assumption.
  - destruct (@simple_operations_keep_the_unit x_m "sum" [] [] s2
                (or_intror (or_intror (or_introl eq_refl))) Hc Hd)
      as (y & s' & Hy & _ & Hu & _).
    exists y, s'. split; assumption.
Defined.

(** ** The unit state of every array handed out *)

Lemma name_in_In name l : name_in name l = true <-> In name l.
Proof.
  unfold name_in. rewrite existsb_exists. split.
  - intros (y & Hy & E). apply String.eqb_eq in E. now subst.
  - intros H. exists name. split; [exact H|apply String.eqb_refl].
Qed.

Lemma bind_ok {A B} (c : M A) (k : A -> M B) s b s' :
  bind c k s = (Ok b, s') ->
  exists a s1, c s = (Ok a, s1) /\ k a s1 = (Ok b, s').
Proof.
  unfold bind. destruct (c s) as [[a|e] s1]; [eauto|discriminate].
Qed.

Lemma new_consistent d u n s y s' :
  __new__ d u n s = (Ok y, s') ->
  unit_state_consistent y
  /\ ua.value (_unyt_quantity y) = Fin 1
  /\ dict_from_new y
  /\ next_id s <= ua.id (_unyt_quantity y) < next_id s'.
Proof.
  cbn. intros [= <- <-]. cbn. repeat split; try lia.
  eexists; reflexivity.
Qed.

Lemma from_dask_new d u n s y s' :
  unyt_from_dask d u n s = (Ok y, s') ->
  exists g, __new__ g u n s = (Ok y, s').
Proof.
  destruct d; cbn [unyt_from_dask]; try discriminate; eauto.
Qed.

Lemma create_consistent d q s y s' :
  _create_with_quantity d q s = (Ok y, s') ->
  _unyt_quantity y = q /\ units y = ua.units q /\ unyt_name y = ua.name q.
Proof.
  unfold _create_with_quantity. intros H.
  apply bind_ok in H as (out & s1 & _ & H).
  cbn in H. injection H as <- <-. repeat split.
Qed.

Lemma create_dict d q s y s' :
  _create_with_quantity d q s = (Ok y, s') -> dict_from_new y.
Proof.
  unfold _create_with_quantity. intros H.
  apply bind_ok in H as (out & s1 & Ho & H).
  apply from_dask_new in Ho as [g Ho].
  apply new_consistent in Ho as (_ & _ & Hd & _).
  cbn in H. injection H as <- <-. exact Hd.
Qed.

Lemma bound_call_no_array b args kw s y s' :
  bound_call b args kw s <> (Ok (VInst y), s').
Proof.
  unfold bound_call, bind, lift.
  destruct (unyt_quantity.conversion (im_name b) (im_self b) args kw)
    as [[v u]|e]; cbv [new_quantity new_object bind ret]; congruence.
Qed.

Lemma plain_attribute_no_array x name args kw s y s' result :
  object_getattribute x name = Ok result ->
  as_callable result args kw s <> (Ok (VInst y), s').
Proof.
  unfold object_getattribute.
  destruct (name =? "units"); [intros [= <-]; cbv [as_callable raise]; congruence|].
  destruct (name =? "_unyt_quantity"); [intros [= <-]; cbv [as_callable raise]; congruence|].
  destruct (name =? "unyt_name"); [intros [= <-]; cbv [as_callable raise]; congruence|].
  destruct (find _ _) as [[k b]|].
  - intros [= <-]. apply bound_call_no_array.
  - destruct (name_in name Array_.attributes); [|discriminate].
    intros [= <-]. cbv [as_callable Array_.getattr bind engine_call ret].
    congruence.
Qed.

Lemma hook_result h args kw s y s' :
  intercept h args kw s = (Ok (VInst y), s') ->
  exists f newargs q s1,
    replayed h = Ok f
    /\ _prep_ufunc dot_to f args (strips h) kw s = (Ok (newargs, has_units q), s1)
    /\ y = mk_array (next_id s1) (delegated h newargs kw) q (ua.units q) (ua.name q)
                    (conversion_dict
                       (ua.mk_quantity (S (next_id s1)) (Fin 1) ua.dimensionless None))
    /\ s' = mkState (2 + next_id s1) (delegated h newargs kw :: built s1)
                    (next_id s1 :: assigned s1).
Proof.
  intros H. destruct (replayed h) as [f|e] eqn:Hh.
  - rewrite intercept_unfold with (f := f) in H by exact Hh.
    apply bind_ok in H as ([newargs ur] & s1 & Hp & H).
    unfold _post_ufunc, bind in H. destruct ur as [q|p]; [|discriminate].
    rewrite create_with_quantity_dask in H. cbn in H. injection H as <- <-.
    exists f, newargs, q, s1. repeat split; assumption.
  - destruct h; try discriminate. cbn in Hh, H.
    unfold _special_dec, bind, lift in H. rewrite Hh in H. discriminate.
Qed.

Lemma method_result x name args kw s y s' :
  call_method x name args kw s = (Ok (VInst y), s') ->
  (In name _unyt_funcs_to_track
   /\ exists v u,
       unyt_quantity.conversion name (_unyt_quantity x) args kw = Ok (v, u)
       /\ y = converted x v u (next_id s) /\ s' = after_conversion x v u s)
  \/ (In name _use_simple_decorator
      /\ exists da s1,
          _create_with_quantity da (_unyt_quantity x) s1 = (Ok y, s')).
Proof.
  intros H. destruct (name_in name _unyt_funcs_to_track) eqn:Hc.
  - left. apply name_in_In in Hc. split; [exact Hc|].
    destruct (call_conversion x args kw Hc) as [_ E]. rewrite E in H.
    destruct (unyt_quantity.conversion name (_unyt_quantity x) args kw)
      as [[v u]|e] eqn:Hq.
    + rewrite track_conversion_ok with (v := v) (u := u) in H by exact Hq.
      injection H as <- <-. eauto.
    + rewrite track_conversion_raise with (e := e) in H by exact Hq.
      discriminate.
  - right. unfold call_method, __getattribute__ in H. rewrite Hc in H.
    destruct (object_getattribute x name) as [result|e] eqn:Ho; [|discriminate].
    destruct (name_in name _use_simple_decorator) eqn:Hs.
    + apply name_in_In in Hs. split; [exact Hs|].
      cbn [as_callable] in H. unfold _simple_dask_decorator in H.
      apply bind_ok in H as (da & s1 & _ & H).
      apply bind_ok in H as (out & s2 & Hout & H).
      cbn in H. injection H as <- <-. eauto.
    + exfalso. exact (plain_attribute_no_array x name args kw s Ho H).
Qed.

(** Every array handed out has the dictionary [__new__] filled, which is
    what the simple operations rely on. *)
Lemma handed_out_arrays_have_the_dict_of_new o s y s' :
  run o s = (Ok (VInst y), s') -> dict_from_new y.
Proof.
  destruct o as [d u n|d u n|h args kw|x name args kw]; cbn [run]; intros H.
  - apply bind_ok in H as (a & s1 & Hn & H). injection H as <- <-.
    now apply new_consistent in Hn.
  - apply bind_ok in H as (a & s1 & Hn & H). injection H as <- <-.
    apply from_dask_new in Hn as [g Hn]. now apply new_consistent in Hn.
  - apply hook_result in H as (f & newargs & q & s1 & _ & _ & -> & _).
    eexists; reflexivity.
  - apply method_result in H as [(_ & v & u & _ & -> & _)|(_ & da & s1 & H)].
    + eexists; reflexivity.
    + now apply create_dict in H.
Qed.

(** C6.  Whatever operation hands out a unit-bearing array, [units] and
    [unyt_name] of that array are the unit and the name of its sidecar.
    The constructor reads both off the sidecar it has just made, and
    [_create_with_quantity] installs a quantity together with its unit and
    its name. *)
Theorem unit_state_is_projection_of_sidecar :
  (forall (o : operation) (s : state) (y : unyt_dask_array) (s' : state),
      run o s = (Ok (VInst y), s') -> unit_state_consistent y)
  /\ (forall d u n s y s',
         __new__ d u n s = (Ok y, s') ->
         unit_state_consistent y /\ ua.value (_unyt_quantity y) = Fin 1)
  /\ (forall d q s y s',
         _create_with_quantity d q s = (Ok y, s') ->
         _unyt_quantity y = q /\ units y = ua.units q /\ unyt_name y = ua.name q)
  /\ (forall self u q n s,
         exists y s', _set_unit_state self u q n s = (Ok y, s')
                      /\ units y = u /\ _unyt_quantity y = q /\ unyt_name y = n).
Proof.
  split; [|split; [|split]].
  - intros [d u n|d u n|h args kw|x name args kw] s y s' H; cbn [run] in H.
    + apply bind_ok in H as (a & s1 & Hn & H). injection H as <- <-.
      now apply new_consistent in Hn.
    + apply bind_ok in H as (a & s1 & Hn & H). injection H as <- <-.
      apply from_dask_new in Hn as [g Hn]. now apply new_consistent in Hn.
    + apply hook_result in H as (f & newargs & q & s1 & _ & _ & -> & _).
      split; reflexivity.
    + apply method_result in H as [(_ & v & u & _ & -> & _)|(_ & da & s1 & H)].
      * split; reflexivity.
      * apply create_consistent in H as (Hq & Hu & Hn).
        split; congruence.
  - intros d u n s y s' H. apply new_consistent in H. tauto.
  - exact create_consistent.
  - intros. eexists. eexists. split; [reflexivity|]. repeat split.
Qed.

(** The array [x + y] of two arrays in metres. *)
Lemma unit_state_is_projection_of_sidecar_witness :
  exists y s',
    run (op_hook (hook_special "__add__") [VInst x_m; VInst y_m] []) s2
    = (Ok (VInst y), s')
    /\ unit_state_consistent y.
Proof.
  eexists. eexists. split; [vm_compute; reflexivity|].
  eapply (proj1 unit_state_is_projection_of_sidecar
                (op_hook (hook_special "__add__") [VInst x_m; VInst y_m] []) s2).
  vm_compute. reflexivity.
Defined.

(** ** Identity of the sidecar *)

Lemma to_value_next_id obj u s : next_id s <= next_id (snd (to_value obj u s)).
Proof. destruct obj; cbn; lia. Qed.

Lemma sanitize_next_id input s r s1 :
  _sanitize_unit_args dot_to input s = (Ok r, s1) -> next_id s <= next_id s1.
Proof.
  destruct (reconcilable input) eqn:Hr.
  - unfold reconcilable in Hr. destruct input as [|i0 [|i1 rest]]; try discriminate.
    destruct (getattr_units (_extract_unyt i0)) as [u0|] eqn:H0; [|discriminate].
    destruct (getattr_units (_extract_unyt i1)) as [u1|] eqn:H1; [|discriminate].
    apply andb_true_iff in Hr as [Hne Hd]. apply negb_true_iff in Hne.
    rewrite (sanitize_reconciles i0 i1 rest s H0 H1 Hne Hd).
    intros [= _ <-]. unfold reconciled.
    destruct (Qltb _ _); cbn [snd]; apply to_value_next_id.
  - rewrite sanitize_untouched by exact Hr. intros [= _ <-]. lia.
Qed.

Lemma prep_fresh f args ed kw s newargs q s1 :
  _prep_ufunc dot_to f args ed kw s = (Ok (newargs, has_units q), s1) ->
  next_id s <= ua.id q < next_id s1.
Proof.
  unfold _prep_ufunc. intros H.
  apply bind_ok in H as ([input' ui'] & sa & Hs & H).
  apply bind_ok in H as (ur & sb & Hr & H).
  injection H as _ -> <-.
  apply sanitize_next_id in Hs.
  unfold replay in Hr. apply bind_ok in Hr as (o & sc & Ho & Hr).
  injection Ho as _ <-.
  destruct o as [v u n|x|b]; [|discriminate..].
  cbn in Hr. injection Hr as <- <-. cbn. lia.
Qed.

(** C7 (as amended).  An array returned by the constructors, by a hook or
    by a conversion has a sidecar that was created during the call, so no
    array that existed before shares it.  An array returned by one of the
    simple allow-listed operations has the very sidecar of the array the
    operation was called on. *)
Theorem sidecar_is_fresh_except_after_simple_operations
        (o : operation) (s : state) (y : unyt_dask_array) (s' : state) :
  run o s = (Ok (VInst y), s') ->
  match o with
  | op_method x name _ _ =>
      if name_in name _unyt_funcs_to_track
      then fresh_sidecar s y s'
      else _unyt_quantity y = _unyt_quantity x
  | _ => fresh_sidecar s y s'
  end.
Proof.
  destruct o as [d u n|d u n|h args kw|x name args kw]; cbn [run]; intros H.
  - apply bind_ok in H as (a & s1 & Hn & H). injection H as <- <-.
    now apply new_consistent in Hn.
  - apply bind_ok in H as (a & s1 & Hn & H). injection H as <- <-.
    apply from_dask_new in Hn as [g Hn]. now apply new_consistent in Hn.
  - apply hook_result in H as (f & newargs & q & s1 & _ & Hp & -> & ->).
    apply prep_fresh in Hp. unfold fresh_sidecar. cbn. lia.
  - apply method_result in H as [(Hin & v & u & _ & -> & ->)|(Hin & da & s1 & H)].
    + apply name_in_In in Hin. rewrite Hin. unfold fresh_sidecar. cbn. lia.
    + destruct (name_in name _unyt_funcs_to_track) eqn:Hc.
      * exfalso. apply name_in_In in Hc. cbn in Hc, Hin.
        repeat (destruct Hc as [<-|Hc];
                [repeat (destruct Hin as [Hin|Hin]; [discriminate Hin|]);
                 exact Hin|]).
        exact Hc.
      * now apply create_consistent in H.
Qed.

(** [x.to(cm)] has a sidecar of its own. *)
Lemma sidecar_is_fresh_except_after_simple_operations_witness :
  exists y s',
    run (op_method x_m "to" [VUnit ua.cm] []) s2 = (Ok (VInst y), s')
    /\ fresh_sidecar s2 y s'.
Proof.
  eexists. eexists. split; [vm_compute; reflexivity|].
  apply (@sidecar_is_fresh_except_after_simple_operations
           (op_method x_m "to" [VUnit ua.cm] []) s2).
  vm_compute. reflexivity.
Defined.

(** C7 (as stated) fails for the simple operations: [x.copy()] is a new
    instance, and its sidecar is the object that is the sidecar of [x]. *)
Lemma copy_shares_the_sidecar :
  exists y s',
    call_method x_m "copy" [] [] s2 = (Ok (VInst y), s')
    /\ self_id y <> self_id x_m
    /\ ua.id (_unyt_quantity y) = ua.id (_unyt_quantity x_m).
Proof.
  eexists. eexists. split; [vm_compute; reflexivity|].
  split; [discriminate|reflexivity].
Qed.

(** ** Finalization *)

(** C4 (as amended).  The finalizer looks at the type of the realized
    value and at nothing else: an [ndarray], whatever its shape, becomes a
    unit-bearing array, and any other value becomes a unit-bearing scalar;
    the unit is the one [__dask_postcompute__] read off the instance.  A
    full reduction yields a numpy scalar, so [x.mean()] materializes to a
    unit-bearing scalar in the unit of [x]. *)
Theorem finalizer_dispatches_on_type
        (results : Type) (finalize : results -> raw) (res_ : results)
        (unit_name : ua.Unit) :
  (forall shape data,
      finalize res_ = ndarray shape data ->
      _finalize_unyt finalize res_ unit_name
      = unyt_array_of (ndarray shape data) unit_name)
  /\ (forall v,
         finalize res_ = npscalar v ->
         _finalize_unyt finalize res_ unit_name
         = unyt_quantity_of (npscalar v) unit_name)
  /\ (forall x, __dask_postcompute__ finalize x = (_finalize_unyt finalize, units x))
  /\ (forall x r s,
         schedule (dask x) = Some r ->
         unit_state_consistent x ->
         dict_from_new x ->
         exists y s',
           call_method x "mean" [] [] s = (Ok (VInst y), s')
           /\ compute y
              = Some (unyt_quantity_of
                        (npscalar (fdiv (total r)
                                        (Fin (inject_Z (Z.of_nat (count r))))))
                        (units x))).
Proof.
  split; [|split; [|split]].
  - intros shape data H. unfold _finalize_unyt. rewrite H. reflexivity.
  - intros v H. unfold _finalize_unyt. rewrite H. reflexivity.
  - reflexivity.
  - intros x r s Hr [Hu _] Hd.
    rewrite (@call_simple x "mean" [] [] s Hd) by (cbn; tauto).
    eexists. eexists. split; [reflexivity|].
    unfold compute. cbn [dask schedule map]. rewrite Hr. cbn.
    now rewrite Hu.
Qed.

(** The mean of the grid in metres is 5/2 metres, a scalar. *)
Lemma finalizer_dispatches_on_type_witness :
  exists y s',
    call_method x_m "mean" [] [] s2 = (Ok (VInst y), s')
    /\ compute y = Some (unyt_quantity_of (npscalar (Fin (5 # 2))) ua.m).
Proof.
  destruct (proj2 (proj2 (proj2
              (@finalizer_dispatches_on_type raw (fun r => r)
                 (npscalar (Fin 0)) ua.m)))
              x_m (ndarray [2; 2] [Fin 1; Fin 2; Fin 3; Fin 4]) s2 eq_refl
              (conj eq_refl eq_refl) (ex_intro _ _ eq_refl))
    as (y & s' & Hy & Hc).
  exists y, s'. split; [exact Hy|exact Hc].
Defined.

(** C4 (as stated) fails for an array without axes: it is a single,
    0-dimensional value, and it comes out as a unit-bearing array. *)
Lemma zero_dimensional_array_is_not_made_a_scalar :
  zero_dimensional (ndarray [] [Fin 5])
  /\ _finalize_unyt (fun r : raw => r) (ndarray [] [Fin 5]) ua.m
     = unyt_array_of (ndarray [] [Fin 5]) ua.m
  /\ ~ is_unyt_quantity (_finalize_unyt (fun r : raw => r) (ndarray [] [Fin 5]) ua.m)
  /\ compute p_m = Some (unyt_array_of (ndarray [] [Fin 5]) ua.m).
Proof.
  split; [reflexivity|]. split; [reflexivity|].
  split; [intros H; exact H|reflexivity].
Qed.

(** ** Round trips *)

(** C9 at a failing input.  [d = x - z] is an array in metres; replaying
    the subtraction on the sidecars leaves [d] with a sidecar of magnitude
    [1 - 1 = 0].  Converting [d] divides by that magnitude: the factor is
    [0/0], and [d.to(cm).to(m)] materializes to NaN where [d] materializes
    to [1, 1, 2, 3]. *)
Lemma round_trip_of_a_difference_is_nan :
  exists d w s1 s3,
    _special_dec dot_to "__sub__" [VInst x_m; VInst z_m] [] s2 = (Ok (VInst d), s1)
    /\ ua.value (_unyt_quantity d) = Fin 0
    /\ units d = ua.m
    /\ compute d
       = Some (unyt_array_of (ndarray [2; 2] [Fin 1; Fin 1; Fin 2; Fin 3]) ua.m)
    /\ round_trip d ua.cm ua.m s1 = (Ok (VInst w), s3)
    /\ units w = ua.m
    /\ compute w
       = Some (unyt_array_of (ndarray [2; 2] [NaN; NaN; NaN; NaN]) ua.m).
Proof.
  eexists. eexists. eexists. eexists.
  split; [vm_compute; reflexivity|].
  split; [reflexivity|]. split; [reflexivity|]. split; [reflexivity|].
  split; [vm_compute; reflexivity|].
  split; reflexivity.
Qed.

Lemma Qzerob_false (q : Q) : ~ (q == 0)%Q -> Qzerob q = false.
Proof.
  intros H. unfold Qzerob. destruct (Qeq_bool q 0) eqn:E; [|reflexivity].
  apply Qeq_bool_iff in E. contradiction.
Qed.

(** In exact arithmetic the round trip does hold for an array whose
    sidecar has a finite magnitude other than zero, as every array has
    that comes from the constructors or from a conversion: the two factors
    multiply to 1.  In binary floating point the product is 1 only up to
    rounding, and a magnitude near the largest float can overflow. *)
Lemma round_trip_when_sidecar_is_nonzero
      (x : unyt_dask_array) (u : ua.Unit) (s : state) (q : Q) :
  let u0 := ua.units (_unyt_quantity x) in
  ua.value (_unyt_quantity x) = Fin q ->
  ~ (q == 0)%Q ->
  ~ (ua.base_value u0 == 0)%Q ->
  ~ (ua.base_value u == 0)%Q ->
  ua.dims_eqb (ua.dimensions u0) (ua.dimensions u) = true ->
  exists w s' f1 f2,
    round_trip x u u0 s = (Ok (VInst w), s')
    /\ dask w = node "__mul__"
                     [node "__mul__" [dask x; const (Fin f1)] []; const (Fin f2)] []
    /\ units w = u0
    /\ (f1 * f2 == 1)%Q.
Proof.
  intros u0 Hv Hq Hb0 Hb Hd.
  assert (Hd' : ua.dims_eqb (ua.dimensions u) (ua.dimensions u0) = true)
    by (now rewrite dims_eqb_sym).
  unfold round_trip, bind.
  destruct (@call_conversion x "to" [VUnit u] [] (or_introl eq_refl)) as [_ ->].
  rewrite track_conversion_ok
    with (v := fmul (Fin q) (ua.conversion_factor u0 u)) (u := u).
  2:{ rewrite conversion_to. unfold ua.convert. fold u0. now rewrite Hd, Hv. }
  match goal with
  | |- context [call_method ?y _ _ _] =>
      destruct (@call_conversion y "to" [VUnit u0] [] (or_introl eq_refl)) as [_ ->]
  end.
  rewrite track_conversion_ok
    with (v := fmul (Fin 1) (ua.conversion_factor u u0)) (u := u0).
  2:{ rewrite conversion_to. unfold ua.convert. cbn. now rewrite Hd'. }
  unfold ua.conversion_factor, fdiv, fmul.
  rewrite (Qzerob_false Hb), (Qzerob_false Hb0).
  eexists. eexists. eexists. eexists.
  split; [reflexivity|].
  cbn [converted dask _unyt_quantity ua.value units]. rewrite Hv.
  unfold fdiv. rewrite (Qzerob_false Hq).
  change (Qzerob 1) with false. cbv iota.
  split; [reflexivity|]. split; [reflexivity|].
  rewrite !Qred_correct. field. repeat split; assumption.
Qed.

(** * Further properties of the module *)

(** ** The state only moves forward *)

Lemma extends_refl s : extends s s.
Proof.
  split; [lia|]. split; [exists []; reflexivity|]. intros i Hi. now left.
Qed.

Lemma extends_trans s1 s2 s3 : extends s1 s2 -> extends s2 s3 -> extends s1 s3.
Proof.
  intros (Hn & [m Hb] & Ha) (Hn' & [m' Hb'] & Ha').
  split; [lia|]. split.
  - exists (m' ++ m)%list. rewrite Hb', Hb. apply app_assoc.
  - intros i Hi. destruct (Ha' i Hi) as [H|H]; [auto|right; lia].
Qed.

Lemma frames_ret {A} (a : A) : frames (ret a).
Proof. intros s. apply extends_refl. Qed.

Lemma frames_raise {A} (e : exn) : frames (@raise A e).
Proof. intros s. apply extends_refl. Qed.

Lemma frames_lift {A} (r : res A) : frames (lift r).
Proof. intros s. apply extends_refl. Qed.

Lemma frames_bind {A B} (c : M A) (k : A -> M B) :
  frames c -> (forall a, frames (k a)) -> frames (bind c k).
Proof.
  intros Hc Hk s. unfold bind. specialize (Hc s).
  destruct (c s) as [[a|e] s1]; cbn [snd] in *; [|exact Hc].
  eapply extends_trans; [exact Hc|apply Hk].
Qed.

Lemma frames_new_object : frames new_object.
Proof.
  intros s. split; cbn; [lia|]. split; [exists []; reflexivity|auto].
Qed.

Lemma frames_engine_call f args kw : frames (engine_call f args kw).
Proof.
  intros s. split; cbn; [lia|].
  split; [exists [node f args kw]; reflexivity|auto].
Qed.

Lemma frames_new_quantity v u n : frames (new_quantity v u n).
Proof.
  apply frames_bind; [apply frames_new_object|intros; apply frames_ret].
Qed.

Lemma frames_new d u n : frames (__new__ d u n).
Proof.
  apply frames_bind; [apply frames_new_object|intros].
  apply frames_bind; [apply frames_new_quantity|intros; apply frames_ret].
Qed.

Lemma frames_from_dask d u n : frames (unyt_from_dask d u n).
Proof.
  destruct d; cbn [unyt_from_dask];
    first [apply frames_new|apply frames_raise].
Qed.

Lemma frames_create d q : frames (_create_with_quantity d q).
Proof.
  intros s.
  assert (H : forall g, extends s (snd (_create_with_quantity (VDask g) q s))).
  { intros g. rewrite create_with_quantity_dask. cbn [snd].
    split; cbn; [lia|]. split; [exists []; reflexivity|].
    intros i [<-|Hi]; [right; lia|now left]. }
  destruct d; try apply extends_refl.
  - exact (H (dask a)).
  - exact (H d).
Qed.

Lemma frames_replay f ui kw : frames (replay f ui kw).
Proof.
  apply frames_bind; [apply frames_lift|intros [v u n|x|b]].
  - apply frames_bind; [apply frames_new_quantity|intros; apply frames_ret].
  - apply frames_ret.
  - apply frames_ret.
Qed.

Lemma frames_array_getattr name : frames_callable (Array_.getattr name).
Proof.
  intros args kw. apply frames_bind; [apply frames_engine_call|].
  intros; apply frames_ret.
Qed.

Lemma frames_post_ufunc f ur :
  frames_callable f -> frames_callable (_post_ufunc f ur).
Proof.
  intros Hf args kw. apply frames_bind; [apply Hf|intros d].
  destruct ur; [|apply frames_ret].
  apply frames_bind; [apply frames_create|intros; apply frames_ret].
Qed.

Lemma frames_bound_call b : frames_callable (bound_call b).
Proof.
  intros args kw. apply frames_bind; [apply frames_lift|intros [v u]].
  apply frames_bind; [apply frames_new_quantity|intros; apply frames_ret].
Qed.

Lemma frames_simple f x :
  frames_callable f -> frames_callable (_simple_dask_decorator f x).
Proof.
  intros Hf args kw. apply frames_bind; [apply Hf|intros da].
  apply frames_bind; [apply frames_create|intros; apply frames_ret].
Qed.

Section FramesDispatch.

Variable to : pyval -> ua.Unit -> M pyval.
Hypothesis frames_to : forall obj u, frames (to obj u).

Lemma frames_sanitize input : frames (_sanitize_unit_args to input).
Proof.
  unfold _sanitize_unit_args.
  destruct input as [|i0 [|i1 rest]]; try apply frames_ret.
  destruct (getattr_units (_extract_unyt i0)); [|apply frames_ret].
  destruct (getattr_units (_extract_unyt i1)); [|apply frames_ret].
  destruct (_ && _); [|apply frames_ret].
  apply frames_bind; [|intros; apply frames_ret].
  destruct (Qltb _ _);
    (apply frames_bind; [apply frames_to|intros; apply frames_ret]).
Qed.

Lemma frames_prep f input ed kw : frames (_prep_ufunc to f input ed kw).
Proof.
  apply frames_bind; [apply frames_sanitize|intros [i ui]].
  apply frames_bind; [apply frames_replay|intros; apply frames_ret].
Qed.

Lemma frames_special name : frames_callable (_special_dec to name).
Proof.
  intros args kw. apply frames_bind; [apply frames_lift|intros f].
  apply frames_bind; [apply frames_prep|intros [newargs ur]].
  apply frames_bind; [apply frames_array_getattr|intros d].
  destruct ur; [|apply frames_ret].
  apply frames_bind; [apply frames_create|intros; apply frames_ret].
Qed.

Lemma frames_track name x : frames_callable (_track_conversion to name x).
Proof.
  intros args kw. apply frames_bind; [apply frames_lift|intros [v u]].
  apply frames_bind; [apply frames_new_quantity|intros q].
  apply frames_bind; [apply frames_special|intros p].
  apply frames_bind; [apply frames_from_dask|intros; apply frames_ret].
Qed.

Lemma frames_object_getattribute x name a :
  object_getattribute x name = Ok a -> frames_callable (as_callable a).
Proof.
  unfold object_getattribute.
  destruct (name =? "units");
    [intros [= <-]; intros args kw; apply frames_raise|].
  destruct (name =? "_unyt_quantity");
    [intros [= <-]; intros args kw; apply frames_raise|].
  destruct (name =? "unyt_name");
    [intros [= <-]; intros args kw; apply frames_raise|].
  destruct (find _ _) as [[k b]|].
  - intros [= <-]. apply frames_bound_call.
  - destruct (name_in name Array_.attributes); [|discriminate].
    intros [= <-]. intros args kw. apply frames_array_getattr.
Qed.

Lemma frames_getattribute x name a :
  __getattribute__ to x name = Ok a -> frames_callable (as_callable a).
Proof.
  unfold __getattribute__.
  destruct (name_in name _unyt_funcs_to_track).
  - intros [= <-]. apply frames_track.
  - destruct (object_getattribute x name) as [r|e] eqn:Ho; [|discriminate].
    destruct (name_in name _use_simple_decorator).
    + intros [= <-]. apply frames_simple.
      now apply frames_object_getattribute with (x := x) (name := name).
    + intros [= <-].
      now apply frames_object_getattribute with (x := x) (name := name).
Qed.

End FramesDispatch.

Lemma frames_method_to depth obj u : frames (method_to depth obj u).
Proof.
  revert obj u. induction depth as [|d IH]; intros obj u; cbn [method_to].
  - apply frames_raise.
  - destruct obj; try apply frames_raise.
    + destruct (__getattribute__ (method_to d) a "to") as [f|e] eqn:Hg;
        [|apply frames_raise].
      now apply (frames_getattribute (method_to d) IH a "to").
    + apply frames_bound_call.
Qed.

Lemma frames_dot_to obj u : frames (dot_to obj u).
Proof. apply frames_method_to. Qed.

Lemma frames_intercept h : frames_callable (intercept h).
Proof.
  intros args kw. destruct h; cbn [intercept].
  - apply frames_bind; [apply frames_prep, frames_dot_to|intros [a ur]].
    apply frames_post_ufunc. intros a' k'.
    apply frames_bind; [apply frames_engine_call|intros; apply frames_ret].
  - apply frames_bind; [apply frames_prep, frames_dot_to|intros [a ur]].
    apply frames_post_ufunc. intros a' k'.
    apply frames_bind; [apply frames_engine_call|intros; apply frames_ret].
  - apply frames_bind; [apply frames_prep, frames_dot_to|intros [a ur]].
    apply frames_post_ufunc. intros a' k'.
    apply frames_bind; [apply frames_engine_call|intros; apply frames_ret].
  - apply frames_special, frames_dot_to.
Qed.

Lemma frames_call_method x name : frames_callable (call_method x name).
Proof.
  intros args kw. unfold call_method.
  destruct (__getattribute__ dot_to x name) as [f|e] eqn:Hg;
    [|apply frames_raise].
  now apply (frames_getattribute dot_to frames_dot_to x name).
Qed.

(** X1.  Whatever operation is run and however it ends, returning or
    raising, the state afterwards extends the state before: no identity is
    reused, no node of the engine is dropped, and the only instances whose
    unit state has been assigned to are instances created during the
    call.  No operation writes to the unit state of an array that existed
    before it. *)
Theorem operations_only_extend_the_state (o : operation) (s : state) :
  extends s (snd (run o s)).
Proof.
  destruct o as [d u n|d u n|h args kw|x name args kw]; cbn [run].
  - apply frames_bind; [apply frames_new|intros; apply frames_ret].
  - apply frames_bind; [apply frames_from_dask|intros; apply frames_ret].
  - apply frames_intercept.
  - apply frames_call_method.
Qed.

(** ** Results are new objects *)

Lemma create_new_object d q s y s' :
  _create_with_quantity d q s = (Ok y, s') ->
  next_id s <= self_id y < next_id s'.
Proof.
  assert (H : forall g, _create_with_quantity (VDask g) q s = (Ok y, s') ->
                        next_id s <= self_id y < next_id s').
  { intros g. rewrite create_with_quantity_dask. intros [= <- <-]. cbn. lia. }
  destruct d; try discriminate.
  - exact (H (dask a)).
  - exact (H d).
Qed.

Lemma method_result_is_new x name args kw s y s' :
  call_method x name args kw s = (Ok (VInst y), s') ->
  next_id s <= self_id y < next_id s'.
Proof.
  intros H. destruct (name_in name _unyt_funcs_to_track) eqn:Hc.
  - apply name_in_In in Hc.
    destruct (call_conversion x args kw Hc) as [_ E]. rewrite E in H.
    destruct (unyt_quantity.conversion name (_unyt_quantity x) args kw)
      as [[v u]|e] eqn:Hq.
    + rewrite track_conversion_ok with (v := v) (u := u) in H by exact Hq.
      injection H as <- <-. cbn. lia.
    + rewrite track_conversion_raise with (e := e) in H by exact Hq.
      discriminate.
  - unfold call_method, __getattribute__ in H. rewrite Hc in H.
    destruct (object_getattribute x name) as [result|e] eqn:Ho; [|discriminate].
    destruct (name_in name _use_simple_decorator) eqn:Hs.
    + cbn [as_callable] in H. unfold _simple_dask_decorator in H.
      apply bind_ok in H as (da & s1 & Hda & H).
      apply bind_ok in H as (out & s2 & Hout & H).
      cbn in H. injection H as <- <-.
      pose proof (frames_object_getattribute x name Ho args kw s) as (Hn & _).
      rewrite Hda in Hn. cbn [snd] in Hn.
      apply create_new_object in Hout. lia.
    + exfalso. exact (plain_attribute_no_array x name args kw s Ho H).
Qed.

(** X2.  Every unit-bearing array an operation returns is an object
    created during the call: its identity is none that had been handed
    out before, so it is never one of the operands. *)
Theorem returned_arrays_are_new_objects
        (o : operation) (s : state) (y : unyt_dask_array) (s' : state) :
  run o s = (Ok (VInst y), s') ->
  next_id s <= self_id y < next_id s'.
Proof.
  destruct o as [d u n|d u n|h args kw|x name args kw]; cbn [run]; intros H.
  - apply bind_ok in H as (a & s1 & Hn & H). injection H as <- <-.
    cbn in Hn. injection Hn as <- <-. cbn. lia.
  - apply bind_ok in H as (a & s1 & Hn & H). injection H as <- <-.
    apply from_dask_new in Hn as [g Hn].
    cbn in Hn. injection Hn as <- <-. cbn. lia.
  - apply hook_result in H as (f & newargs & q & s1 & _ & Hp & -> & ->).
    pose proof (frames_prep dot_to frames_dot_to f args (strips h) kw s)
      as (Hn & _).
    rewrite Hp in Hn. cbn in *. lia.
  - now apply method_result_is_new in H.
Qed.

(** The sum of two arrays in metres is a new object. *)
Lemma returned_arrays_are_new_objects_witness :
  exists y s',
    run (op_hook (hook_special "__add__") [VInst x_m; VInst y_m] []) s2
    = (Ok (VInst y), s')
    /\ next_id s2 <= self_id y < next_id s'.
Proof.
  eexists. eexists. split; [vm_compute; reflexivity|].
  apply (@returned_arrays_are_new_objects
           (op_hook (hook_special "__add__") [VInst x_m; VInst y_m] []) s2).
  vm_compute. reflexivity.
Defined.

(** ** Sanitation and preparation of the operands *)

(** X3.  Sanitation returns for every tuple of operands and never raises.
    It keeps the number of operands and leaves every operand from the
    third on exactly as it was, whatever its unit.  It changes the state
    only when the first two extracted operands carry different units of
    equal dimensions: otherwise (no operand, one operand, an operand
    without units, equal units, different dimensions) the operands and the
    state come back untouched. *)
Theorem sanitation_always_returns (input : list pyval) (s : state) :
  exists input' s',
    _sanitize_unit_args dot_to input s
    = (Ok (input', map _extract_unyt input'), s')
    /\ List.length input' = List.length input
    /\ skipn 2 input' = skipn 2 input
    /\ (reconcilable input = false -> input' = input /\ s' = s)
    /\ (reconcilable input = true -> next_id s < next_id s').
Proof. apply sanitize_total. Qed.

Lemma cleaned_operand (ed : bool) (w : pyval) :
  match _extract_unyt_val (if ed then _extract_dask w else w) with
  | VQuantity _ => False
  | VInst _ => ed = false
  | _ => True
  end.
Proof. destruct ed, w; cbn; auto. Qed.

(** X4.  When [_prep_ufunc] returns, it returns as many operands as it
    was given, none of them is a quantity of the unit library, and with
    [extract_dask] set none of them is a unit-bearing array either: what
    reaches the engine then is plain arrays, numbers and the like. *)
Theorem prepared_operands_are_clean
        (f : unyt_quantity.method) (input : list pyval) (extract_dask : bool)
        (kw : kwargs) (s : state) (newargs : list pyval)
        (unyt_result : unyt_result) (s' : state) :
  _prep_ufunc dot_to f input extract_dask kw s
  = (Ok (newargs, unyt_result), s') ->
  List.length newargs = List.length input
  /\ forall v, In v newargs ->
       match v with
       | VQuantity _ => False
       | VInst _ => extract_dask = false
       | _ => True
       end.
Proof.
  intros H.
  destruct (sanitize_total input s) as (input' & s1 & Hs & Hl & _).
  erewrite prep_after_sanitize in H by exact Hs.
  apply bind_ok in H as (ur & s2 & _ & H). injection H as <- _ _.
  split.
  - destruct extract_dask; now rewrite ?length_map.
  - intros v Hv. apply in_map_iff in Hv as (w & <- & Hw).
    destruct extract_dask.
    + apply in_map_iff in Hw as (w' & <- & _). apply (cleaned_operand true).
    + apply (cleaned_operand false).
Qed.

(** Preparing [x + 3 m] for the operator hook. *)
Lemma prepared_operands_are_clean_witness :
  _prep_ufunc dot_to (__call__ np_add)
              [VInst x_m; VQuantity (ua.mk_quantity 9 (Fin 3) ua.m None)]
              true [] s2
  = (Ok ([VDask grid; VNum (Fin 3)],
         has_units (ua.mk_quantity 4 (Fin 4) ua.m None)),
     mkState 5 [] [])
  /\ List.length [VDask grid; VNum (Fin 3)] = 2.
Proof.
  split; [reflexivity|].
  exact (proj1 (@prepared_operands_are_clean
                  (__call__ np_add)
                  [VInst x_m; VQuantity (ua.mk_quantity 9 (Fin 3) ua.m None)]
                  true [] s2 [VDask grid; VNum (Fin 3)]
                  (has_units (ua.mk_quantity 4 (Fin 4) ua.m None))
                  (mkState 5 [] []) eq_refl)).
Defined.

(** ** More on conversions *)

(** X5.  When the unit library rejects a conversion (a target unit of
    other dimensions, arguments it does not accept), the call raises the
    error of the library and leaves the state as it was: nothing has been
    multiplied, no node built, no object created. *)
Theorem rejected_conversion_changes_nothing
        (x : unyt_dask_array) (name : string) (args : list pyval) (kw : kwargs)
        (s : state) (e : exn) :
  In name _unyt_funcs_to_track ->
  unyt_quantity.conversion name (_unyt_quantity x) args kw = Raise e ->
  call_method x name args kw s = (Raise e, s).
Proof.
  intros Hin Hc. destruct (call_conversion x args kw Hin) as [_ ->].
  now apply track_conversion_raise.
Qed.

(** Metres cannot be converted to seconds. *)
Lemma rejected_conversion_changes_nothing_witness :
  call_method x_m "to" [VUnit ua.s] [] s2 = (Raise UnitConversionError, s2).
Proof.
  apply (@rejected_conversion_changes_nothing
           x_m "to" [VUnit ua.s] [] s2 UnitConversionError
           (or_introl eq_refl) eq_refl).
Defined.

Lemma Qred_zero (q : Q) : (q == 0)%Q -> Qred q = 0%Q.
Proof. intros H. now rewrite (Qred_complete q 0 H). Qed.

Lemma zero_times_over_zero (c : fval) (z : Q) :
  (z == 0)%Q -> fdiv (fmul (Fin z) c) (Fin z) = NaN.
Proof.
  intros Hz.
  assert (Zb : Qzerob z = true) by (now apply Qeq_bool_iff).
  destruct c as [y|n|]; cbn [fmul fdiv]; rewrite ?Zb; try reflexivity.
  assert (E : Qzerob (Qred (z * y)) = true).
  { apply Qeq_bool_iff. rewrite Qred_correct, Hz. ring. }
  now rewrite E.
Qed.

Lemma difference_same_unit a b kw s :
  ua.units (_unyt_quantity b) = ua.units (_unyt_quantity a) ->
  _special_dec dot_to "__sub__" [VInst a; VInst b] kw s =
  (let n := next_id s in
   let nd := node "__sub__" [dask a; dask b] kw in
   let q := ua.mk_quantity n (fsub (ua.value (_unyt_quantity a))
                                   (ua.value (_unyt_quantity b)))
                           (ua.units (_unyt_quantity a)) None in
   (Ok (VInst (mk_array (S n) nd q (ua.units q) None
                 (conversion_dict
                    (ua.mk_quantity (S (S n)) (Fin 1) ua.dimensionless None)))),
    mkState (3 + n) (nd :: built s) (S n :: assigned s))).
Proof.
  intros Hu.
  assert (Hr : reconcilable [VInst a; VInst b] = false).
  { cbn. rewrite Hu, unit_eqb_refl. reflexivity. }
  unfold _special_dec.
  cbn [unyt_quantity.getattr String.eqb Ascii.eqb Bool.eqb lift].
  unfold bind at 1. cbn [lift]. unfold bind at 1.
  erewrite prep_after_sanitize by (now apply sanitize_untouched).
  unfold bind at 1. unfold replay, bind at 1, lift, unyt_quantity.binary.
  cbn [map _extract_unyt].
  rewrite (additive_same_unit fsub (_unyt_quantity a) (_unyt_quantity b) Hu).
  reflexivity.
Qed.

(** X7.  The difference [a - b] of two arrays in one unit whose sidecars
    have equal finite magnitudes is returned with a sidecar of magnitude
    zero, and converting it, to whatever unit of its dimensions,
    multiplies its graph by NaN: the factor is the new magnitude over the
    old one, zero over zero. *)
Theorem conversion_of_a_difference_multiplies_by_nan
        (a b : unyt_dask_array) (u : ua.Unit) (kw : kwargs) (s : state)
        (qa qb : Q) :
  ua.value (_unyt_quantity a) = Fin qa ->
  ua.value (_unyt_quantity b) = Fin qb ->
  (qa == qb)%Q ->
  ua.units (_unyt_quantity b) = ua.units (_unyt_quantity a) ->
  ua.dims_eqb (ua.dimensions (ua.units (_unyt_quantity a))) (ua.dimensions u)
  = true ->
  exists d s1 w s2,
    _special_dec dot_to "__sub__" [VInst a; VInst b] kw s = (Ok (VInst d), s1)
    /\ ua.value (_unyt_quantity d) = Fin 0
    /\ units d = ua.units (_unyt_quantity a)
    /\ call_method d "to" [VUnit u] [] s1 = (Ok (VInst w), s2)
    /\ dask w = node "__mul__" [node "__sub__" [dask a; dask b] kw; const NaN] []
    /\ units w = u.
Proof.
  intros Ha Hb Hq Hu Hd.
  rewrite (difference_same_unit a b kw s Hu). cbn zeta.
  assert (Hz : fsub (ua.value (_unyt_quantity a)) (ua.value (_unyt_quantity b))
               = Fin 0).
  { rewrite Ha, Hb. unfold fsub, fneg, fadd. f_equal. apply Qred_zero.
    rewrite Qred_correct, Hq. ring. }
  rewrite Hz.
  eexists. eexists. eexists. eexists.
  split; [reflexivity|]. split; [reflexivity|]. split; [reflexivity|].
  match goal with
  | |- call_method ?d _ _ _ _ = _ /\ _ =>
      destruct (@call_conversion d "to" [VUnit u] [] (or_introl eq_refl))
        as [_ ->];
      rewrite (@track_conversion_ok dot_to "to" d [VUnit u] [] _
                 (fmul (Fin 0)
                       (ua.conversion_factor (ua.units (_unyt_quantity a)) u))
                 u)
  end.
  - split; [reflexivity|]. cbn [converted dask _unyt_quantity ua.value units].
    rewrite zero_times_over_zero by reflexivity.
    split; reflexivity.
  - rewrite conversion_to. unfold ua.convert. cbn. now rewrite Hd.
Qed.

(** [(x - z).to(cm)] for two arrays in metres. *)
Lemma conversion_of_a_difference_multiplies_by_nan_witness :
  exists d s1 w s2',
    _special_dec dot_to "__sub__" [VInst x_m; VInst z_m] [] s2 = (Ok (VInst d), s1)
    /\ call_method d "to" [VUnit ua.cm] [] s1 = (Ok (VInst w), s2')
    /\ dask w = node "__mul__" [node "__sub__" [grid; grid'] []; const NaN] [].
Proof.
  destruct (@conversion_of_a_difference_multiplies_by_nan
              x_m z_m ua.cm [] s2 1 1 eq_refl eq_refl (Qeq_refl 1) eq_refl eq_refl)
    as (d & s1 & w & s2' & Hd & _ & _ & Hw & Hg & _).
  exists d, s1, w, s2'. repeat split; assumption.
Defined.

(** X8.  A conversion does not carry the custom name of the array over:
    the array it returns has no [unyt_name], and neither has its sidecar,
    whatever name the array converted had. *)
Theorem conversion_drops_the_custom_name
        (name : string) (x : unyt_dask_array) (args : list pyval) (kw : kwargs)
        (s : state) (y : unyt_dask_array) (s' : state) :
  In name _unyt_funcs_to_track ->
  call_method x name args kw s = (Ok (VInst y), s') ->
  unyt_name y = None /\ ua.name (_unyt_quantity y) = None.
Proof.
  intros Hin H. destruct (call_conversion x args kw Hin) as [_ E].
  rewrite E in H.
  destruct (unyt_quantity.conversion name (_unyt_quantity x) args kw)
    as [[v u]|e] eqn:Hq.
  - rewrite track_conversion_ok with (v := v) (u := u) in H by exact Hq.
    injection H as <- <-. split; reflexivity.
  - rewrite track_conversion_raise with (e := e) in H by exact Hq.
    discriminate.
Qed.

Example named_m_is_constructed :
  unyt_from_dask (VDask grid) (Some ua.m) (Some "depth") s0
  = (Ok named_m, mkState 2 [] []).
Proof. reflexivity. Qed.

(** An array named "depth" loses the name when converted. *)
Lemma conversion_drops_the_custom_name_witness :
  unyt_name named_m = Some "depth"
  /\ exists y s',
      call_method named_m "to" [VUnit ua.cm] [] s2 = (Ok (VInst y), s')
      /\ unyt_name y = None.
Proof.
  split; [reflexivity|].
  eexists. eexists. split; [vm_compute; reflexivity|].
  eapply (fun y s' H =>
            proj1 (@conversion_drops_the_custom_name
                     "to" named_m [VUnit ua.cm] [] s2 y s' (or_introl eq_refl) H)).
  vm_compute. reflexivity.
Defined.

(** ** Sums, wrapping and the instance dictionary *)

Lemma unit_eqb_sym (u v : ua.Unit) : ua.eqb u v = ua.eqb v u.
Proof.
  unfold ua.eqb. rewrite dims_eqb_sym. f_equal.
  destruct (Qeq_bool (ua.base_value u) (ua.base_value v)) eqn:E1,
           (Qeq_bool (ua.base_value v) (ua.base_value u)) eqn:E2; auto.
  - apply Qeq_bool_iff in E1. symmetry in E1. apply Qeq_bool_iff in E1. congruence.
  - apply Qeq_bool_iff in E2. symmetry in E2. apply Qeq_bool_iff in E2. congruence.
Qed.

Lemma larger_unit_sym (u0 u1 : ua.Unit) :
  ua.eqb u0 u1 = false ->
  ua.dims_eqb (ua.dimensions u0) (ua.dimensions u1) = true ->
  (if Qltb (ua.base_value u0) (ua.base_value u1) then u1 else u0)
  = (if Qltb (ua.base_value u1) (ua.base_value u0) then u0 else u1).
Proof.
  intros Hne Hd. unfold ua.eqb in Hne. rewrite Hd, andb_true_r in Hne.
  destruct (Qltb (ua.base_value u0) (ua.base_value u1)) eqn:H01,
           (Qltb (ua.base_value u1) (ua.base_value u0)) eqn:H10; auto.
  - apply Qltb_true_le in H01. apply Qltb_true_le in H10.
    assert (E : (ua.base_value u0 == ua.base_value u1)%Q)
      by (now apply Qle_antisym).
    apply Qeq_bool_iff in E. congruence.
  - apply Qltb_false_le in H01. apply Qltb_false_le in H10.
    assert (E : (ua.base_value u0 == ua.base_value u1)%Q)
      by (now apply Qle_antisym).
    apply Qeq_bool_iff in E. congruence.
Qed.

Lemma sum_unit i0 i1 kw s u0 u1 name :
  In name additive_names ->
  getattr_units (_extract_unyt i0) = Some u0 ->
  getattr_units (_extract_unyt i1) = Some u1 ->
  ua.eqb u0 u1 = false ->
  ua.dims_eqb (ua.dimensions u0) (ua.dimensions u1) = true ->
  exists r t,
    _special_dec dot_to name [i0; i1] kw s = (Ok (VInst r), t)
    /\ units r = if Qltb (ua.base_value u0) (ua.base_value u1) then u1 else u0.
Proof.
  intros Hn H0 H1 Hne Hd.
  pose proof (sanitize_reconciles i0 i1 [] s H0 H1 Hne Hd) as Hs.
  unfold reconciled in Hs.
  destruct (Qltb (ua.base_value u0) (ua.base_value u1)); cbn [fst snd] in Hs.
  - destruct (extract_quantity i1 H1) as (q1 & E1 & U1).
    destruct (extract_quantity (fst (to_value i0 u1 s))
                (to_value_units i0 u1 s H0)) as (q0 & E0 & U0).
    cbn [map] in Hs. rewrite E0, E1 in Hs.
    destruct (@special_additive dot_to name i0 i1 kw s _ _ _ _ _ _ Hn Hs U0 U1)
      as (r & t & Hr & Hu & _). eauto.
  - destruct (extract_quantity i0 H0) as (q0 & E0 & U0).
    destruct (extract_quantity (fst (to_value i1 u0 s))
                (to_value_units i1 u0 s H1)) as (q1 & E1 & U1).
    cbn [map] in Hs. rewrite E0, E1 in Hs.
    destruct (@special_additive dot_to name i0 i1 kw s _ _ _ _ _ _ Hn Hs U0 U1)
      as (r & t & Hr & Hu & _). eauto.
Qed.

(** X9.  For two operands in different units of equal dimensions, the
    unit of a sum does not depend on the order of the operands: [a + b]
    and [b + a] both come back in the unit of larger base value. *)
Theorem unit_of_a_sum_ignores_operand_order
        (i0 i1 : pyval) (kw : kwargs) (s s' : state) (u0 u1 : ua.Unit) :
  getattr_units (_extract_unyt i0) = Some u0 ->
  getattr_units (_extract_unyt i1) = Some u1 ->
  ua.eqb u0 u1 = false ->
  ua.dims_eqb (ua.dimensions u0) (ua.dimensions u1) = true ->
  exists r1 t1 r2 t2,
    _special_dec dot_to "__add__" [i0; i1] kw s = (Ok (VInst r1), t1)
    /\ _special_dec dot_to "__add__" [i1; i0] kw s' = (Ok (VInst r2), t2)
    /\ units r1 = units r2
    /\ units r1 = if Qltb (ua.base_value u0) (ua.base_value u1) then u1 else u0.
Proof.
  intros H0 H1 Hne Hd.
  assert (Hne' : ua.eqb u1 u0 = false) by (now rewrite unit_eqb_sym).
  assert (Hd' : ua.dims_eqb (ua.dimensions u1) (ua.dimensions u0) = true)
    by (now rewrite dims_eqb_sym).
  destruct (@sum_unit i0 i1 kw s u0 u1 "__add__" (or_introl eq_refl)
              H0 H1 Hne Hd) as (r1 & t1 & Hr1 & Hu1).
  destruct (@sum_unit i1 i0 kw s' u1 u0 "__add__" (or_introl eq_refl)
              H1 H0 Hne' Hd') as (r2 & t2 & Hr2 & Hu2).
  exists r1, t1, r2, t2. repeat split; try assumption.
  rewrite Hu1, Hu2. now apply larger_unit_sym.
Qed.

(** Metres plus centimetres and centimetres plus metres are metres. *)
Lemma unit_of_a_sum_ignores_operand_order_witness :
  exists r1 t1 r2 t2,
    _special_dec dot_to "__add__" [VInst x_m; VInst y_cm] [] s2 = (Ok (VInst r1), t1)
    /\ _special_dec dot_to "__add__" [VInst y_cm; VInst x_m] [] s2 = (Ok (VInst r2), t2)
    /\ units r1 = units r2
    /\ units r1 = ua.m.
Proof.
  exact (@unit_of_a_sum_ignores_operand_order
           (VInst x_m) (VInst y_cm) [] s2 s2 ua.m ua.cm
           eq_refl eq_refl eq_refl eq_refl).
Defined.

(** X10.  [unyt_from_dask] relabels and never converts: the array it
    returns has the graph of the array it was given, also when that array
    already carried another unit; its unit is the one asked for
    (dimensionless when none is), its sidecar has magnitude 1, and the
    engine has built nothing.  Stripping the result with [to_dask] gives
    back the plain array that went in. *)
Theorem wrapping_keeps_the_graph
        (dask_array : pyval) (u : option ua.Unit) (n : option string)
        (s : state) (y : unyt_dask_array) (s' : state) :
  unyt_from_dask dask_array u n s = (Ok y, s') ->
  _extract_dask (VInst y) = _extract_dask dask_array
  /\ units y = unyt_quantity.unit_of u
  /\ ua.value (_unyt_quantity y) = Fin 1
  /\ unyt_name y = n
  /\ built s' = built s.
Proof.
  destruct dask_array; cbn [unyt_from_dask]; try discriminate;
    cbn; intros [= <- <-]; repeat split.
Qed.

(** Wrapping an array in metres again, as centimetres. *)
Lemma wrapping_keeps_the_graph_witness :
  exists y s',
    unyt_from_dask (VInst x_m) (Some ua.cm) None s2 = (Ok y, s')
    /\ _extract_dask (VInst y) = VDask grid
    /\ units y = ua.cm.
Proof.
  eexists. eexists. split; [reflexivity|].
  destruct (@wrapping_keeps_the_graph (VInst x_m) (Some ua.cm) None s2 _ _ eq_refl)
    as (Hg & Hu & _).
  split; [exact Hg|exact Hu].
Defined.

(** ** The textual representation *)

Lemma prefix_app (p rest : string) : prefix p (p ++ rest) = true.
Proof.
  induction p as [|c p IH]; cbn; [now destruct rest|].
  destruct (Ascii.ascii_dec c c); [exact IH|contradiction].
Qed.

Lemma replace_from_skip (old new w rest : string) :
  replace_from (String.length w) old new (w ++ rest)
  = replace_from 0 old new rest.
Proof.
  induction w as [|c w IH]; cbn [String.length append replace_from].
  - destruct rest; reflexivity.
  - exact IH.
Qed.

Lemma replace_head (c : Ascii.ascii) (old' new rest : string) :
  replace (String c old') new (String c old' ++ rest)
  = new ++ replace (String c old') new rest.
Proof.
  unfold replace. cbn [append]. cbn [replace_from].
  change (String c (old' ++ rest)) with (String c old' ++ rest).
  rewrite prefix_app. cbn [String.length].
  replace (S (String.length old') - 1) with (String.length old') by lia.
  now rewrite replace_from_skip.
Qed.

Lemma replace_absent (old new s : string) :
  occurs old s = false -> replace old new s = s.
Proof.
  unfold replace. induction s as [|c s IH]; [reflexivity|].
  cbn [occurs]. intros H. apply orb_false_iff in H as [Hp Ho].
  cbn [replace_from]. rewrite Hp. now rewrite IH.
Qed.

Lemma string_app_assoc (a b c : string) : (a ++ b) ++ c = a ++ (b ++ c).
Proof. induction a as [|x a IH]; cbn; [reflexivity|now rewrite IH]. Qed.

Lemma string_app_nil_r (a : string) : a ++ "" = a.
Proof. induction a as [|x a IH]; cbn; [reflexivity|now rewrite IH]. Qed.

Lemma replace_char_app (c : Ascii.ascii) (new a b : string) :
  replace (String c "") new (a ++ b)
  = replace (String c "") new a ++ replace (String c "") new b.
Proof.
  unfold replace. induction a as [|x a IH]; [reflexivity|].
  cbn [append]. cbn [replace_from String.length Nat.sub].
  change (String x (a ++ b)) with (String x a ++ b).
  assert (E : prefix (String c "") (String x a ++ b)
              = prefix (String c "") (String x a)).
  { cbn. destruct (Ascii.ascii_dec c x); [now destruct a, b|reflexivity]. }
  rewrite E. destruct (prefix (String c "") (String x a)).
  - rewrite IH. now rewrite string_app_assoc.
  - cbn [append]. now rewrite IH.
Qed.

(** X11.  When the engine represents the array as [dask.array<body>] and
    [dask.array] does not occur again, the representation of the
    unit-bearing array is [unyt_dask_array<...>] with the unit in front of
    the closing bracket.  The unit is put in front of every [>] of the
    body as well: with a body free of [>] the body is kept as it is. *)
Theorem repr_shows_class_and_unit (body : string) (self : unyt_dask_array) :
  occurs "dask.array" (body ++ ">") = false ->
  let units_str := ", units=" ++ ua.expr (units self) ++ ">" in
  __repr__ ("dask.array<" ++ body ++ ">") self
  = "unyt_dask_array<" ++ replace ">" units_str body ++ units_str
  /\ (occurs ">" body = false ->
      __repr__ ("dask.array<" ++ body ++ ">") self
      = "unyt_dask_array<" ++ body ++ units_str).
Proof.
  intros Hno units_str.
  assert (H : __repr__ ("dask.array<" ++ body ++ ">") self
              = "unyt_dask_array<" ++ replace ">" units_str body ++ units_str).
  { assert (S1 : replace "dask.array" "unyt_dask_array"
                         ("dask.array<" ++ body ++ ">")
                 = "unyt_dask_array<" ++ (body ++ ">")).
    { change ("dask.array<" ++ body ++ ">")
        with ("dask.array" ++ ("<" ++ body ++ ">")).
      rewrite replace_head. rewrite replace_absent; [reflexivity|].
      simpl. exact Hno. }
    unfold __repr__. fold units_str. rewrite S1.
    rewrite !replace_char_app.
    change (replace ">" units_str ">") with (units_str ++ "").
    rewrite string_app_nil_r. reflexivity. }
  split; [exact H|].
  intros Hb. rewrite H. now rewrite replace_absent.
Qed.

(** The example of the docstring of [unyt_from_dask]. *)
Lemma repr_shows_class_and_unit_witness :
  __repr__ "dask.array<random_sample, shape=(10000, 10000), dtype=float64, chunksize=(1000, 1000), chunktype=numpy.ndarray>"
           x_m
  = "unyt_dask_array<random_sample, shape=(10000, 10000), dtype=float64, chunksize=(1000, 1000), chunktype=numpy.ndarray, units=m>".
Proof.
  exact (proj2 (@repr_shows_class_and_unit
                  "random_sample, shape=(10000, 10000), dtype=float64, chunksize=(1000, 1000), chunktype=numpy.ndarray"
                  x_m eq_refl) eq_refl).
Defined.

(** ** What a hook builds *)

(** X12.  When sanitation has returned and the unit library then rejects
    the replay, the hook raises the error of the library in the state
    sanitation left: what sanitation did is not undone.  If sanitation
    converted a unit-bearing array, the multiplication node of that
    conversion has been built for an operation that fails. *)
Theorem rejected_replay_keeps_what_sanitation_did
        (h : hook) (f : unyt_quantity.method) (input input' : list pyval)
        (kw : kwargs) (s sa : state) (e : exn) :
  replayed h = Ok f ->
  _sanitize_unit_args dot_to input s = (Ok (input', map _extract_unyt input'), sa) ->
  f (map _extract_unyt input') kw = Raise e ->
  intercept h input kw s = (Raise e, sa).
Proof.
  intros Hh Hs Hf.
  rewrite intercept_unfold with (f := f) by exact Hh.
  unfold bind at 1. erewrite prep_after_sanitize by exact Hs.
  unfold bind, replay, lift. rewrite Hf. reflexivity.
Qed.

(** Clipping metres between centimetres and seconds: the centimetres are
    converted, and the node of that conversion is built, before the
    seconds are rejected. *)
Lemma rejected_replay_keeps_what_sanitation_did_witness :
  intercept (hook_array_function x_m np_clip [])
            [VInst x_m; VInst y_cm; VInst t_s] [] s4
  = (Raise UnitOperationError,
     mkState 12 [node "__mul__" [grid; const (Fin (1 # 100))] []] [8]).
Proof.
  apply (@rejected_replay_keeps_what_sanitation_did
           (hook_array_function x_m np_clip []) (__call__ np_clip)
           [VInst x_m; VInst y_cm; VInst t_s]
           [VInst x_m; VInst (converted y_cm (Fin (1 # 100)) ua.m 6); VInst t_s]
           [] s4
           (mkState 12 [node "__mul__" [grid; const (Fin (1 # 100))] []] [8])
           UnitOperationError);
    reflexivity.
Defined.

(** X13.  A hook that returns has had the engine build the node of the
    operation, on top of what sanitation built: nothing when no
    unit-bearing array had to be converted, and otherwise the one
    multiplication node of the conversion of one of the first two
    operands.  Resolving the unit builds nothing. *)
Theorem hook_builds_the_operation_and_at_most_one_conversion
        (h : hook) (f : unyt_quantity.method) (args : list pyval) (kw : kwargs)
        (s : state) (r : pyval) (s' : state) :
  replayed h = Ok f ->
  intercept h args kw s = (Ok r, s') ->
  exists newargs,
    built s' = delegated h newargs kw :: built s
    \/ exists x fac,
        In (VInst x) (firstn 2 args)
        /\ built s' = delegated h newargs kw
                      :: node "__mul__" [dask x; const fac] [] :: built s.
Proof.
  intros Hh H.
  rewrite intercept_unfold with (f := f) in H by exact Hh.
  apply bind_ok in H as ([newargs ur] & s1 & Hp & H).
  exists newargs.
  assert (Hb : built s' = delegated h newargs kw :: built s1).
  { unfold _post_ufunc, bind in H. destruct ur as [q|p].
    - rewrite create_with_quantity_dask in H. cbn in H.
      injection H as _ <-. reflexivity.
    - cbn in H. injection H as _ <-. reflexivity. }
  unfold _prep_ufunc in Hp.
  apply bind_ok in Hp as ([input' ui] & sa & Hs & Hp).
  apply bind_ok in Hp as (ur' & sb & Hr & Hp).
  injection Hp as _ _ <-.
  apply replay_built in Hr. rewrite Hb, Hr.
  destruct (@sanitize_built _ _ _ _ _ Hs) as [[_ E]|(x & fac & Hin & E)].
  - left. now rewrite E.
  - right. exists x, fac. split; [exact Hin|now rewrite E].
Qed.

(** Metres plus centimetres: the conversion of the centimetres, then the
    sum. *)
Lemma hook_builds_the_operation_and_at_most_one_conversion_witness :
  exists r s',
    intercept (hook_special "__add__") [VInst x_m; VInst y_cm] [] s2 = (Ok r, s')
    /\ exists newargs,
        built s' = delegated (hook_special "__add__") newargs [] :: built s2
        \/ exists x fac,
            In (VInst x) (firstn 2 [VInst x_m; VInst y_cm])
            /\ built s' = delegated (hook_special "__add__") newargs []
                          :: node "__mul__" [dask x; const fac] [] :: built s2.
Proof.
  eexists. eexists.
  eassert (H : intercept (hook_special "__add__") [VInst x_m; VInst y_cm] [] s2
               = (Ok _, _)) by (vm_compute; reflexivity).
  split; [exact H|].
  exact (@hook_builds_the_operation_and_at_most_one_conversion
           (hook_special "__add__")
           (unyt_quantity.binary (unyt_quantity.additive fadd) false)
           [VInst x_m; VInst y_cm] [] s2 _ _ eq_refl H).
Defined.

(** ** The conversion methods stored in the instance *)

(** X14.  [_set_unit_state] does not touch the conversion methods that
    [__new__] stored in the instance: after [_create_with_quantity] they
    are still the methods of the dimensionless quantity of magnitude 1
    that the wrapping constructor made, not those of the quantity that
    was installed.  Looked up past [__getattribute__], each of the five
    names gives a method of that dimensionless quantity. *)
Theorem stored_conversion_methods_are_not_refreshed
        (dask_array : pyval) (q : ua.unyt_quantity) (s : state)
        (y : unyt_dask_array) (s' : state) :
  _create_with_quantity dask_array q s = (Ok y, s') ->
  _unyt_quantity y = q
  /\ exists q0,
      __dict__ y = conversion_dict q0
      /\ ua.units q0 = ua.dimensionless
      /\ ua.value q0 = Fin 1
      /\ ua.id q0 = S (self_id y)
      /\ forall name, In name _unyt_funcs_to_track ->
           object_getattribute y name
           = Ok (method (bound_call (mk_bound q0 name))).
Proof.
  intros H.
  assert (Hg : exists g, _create_with_quantity (VDask g) q s = (Ok y, s')).
  { destruct dask_array; try discriminate; eauto. }
  destruct Hg as [g Hg]. rewrite create_with_quantity_dask in Hg.
  injection Hg as <- <-. split; [reflexivity|].
  eexists. split; [reflexivity|]. repeat split.
  intros name Hin. cbn in Hin.
  destruct Hin as [<-|[<-|[<-|[<-|[<-|[]]]]]]; reflexivity.
Qed.

(** The sum of two arrays in metres: the stored [to] belongs to a
    dimensionless quantity and rejects centimetres, while attribute
    access converts. *)
Lemma stored_conversion_methods_are_not_refreshed_witness :
  exists y s',
    _create_with_quantity (VDask (node "__add__" [grid; grid] []))
                          (ua.mk_quantity 4 (Fin 2) ua.m None)
                          (mkState 5 [node "__add__" [grid; grid] []] [])
    = (Ok y, s')
    /\ (exists q0, __dict__ y = conversion_dict q0
                   /\ ua.units q0 = ua.dimensionless)
    /\ fst (as_callable
              (match object_getattribute y "to" with
               | Ok a => a
               | Raise _ => text None
               end) [VUnit ua.cm] [] s')
       = Raise UnitConversionError
    /\ exists w s'', call_method y "to" [VUnit ua.cm] [] s' = (Ok (VInst w), s'').
Proof.
  eexists. eexists.
  eassert (H : _create_with_quantity (VDask (node "__add__" [grid; grid] []))
                 (ua.mk_quantity 4 (Fin 2) ua.m None)
                 (mkState 5 [node "__add__" [grid; grid] []] [])
               = (Ok _, _)) by (vm_compute; reflexivity).
  split; [exact H|].
  destruct (@stored_conversion_methods_are_not_refreshed _ _ _ _ _ H)
    as (_ & q0 & Hd & Hu & _).
  split; [exists q0; split; assumption|].
  split; [reflexivity|].
  eexists. eexists. vm_compute. reflexivity.
Defined.

(** ** Sanitation settles the operands *)

Lemma reconciled_is_settled i0 i1 rest u0 u1 s :
  getattr_units (_extract_unyt i0) = Some u0 ->
  getattr_units (_extract_unyt i1) = Some u1 ->
  reconcilable (fst (reconciled i0 i1 rest u0 u1 s)) = false.
Proof.
  intros H0 H1. unfold reconciled.
  destruct (Qltb _ _); cbn [fst reconcilable].
  - rewrite (to_value_units i0 u1 s H0), H1.
    now rewrite unit_eqb_refl.
  - rewrite H0, (to_value_units i1 u0 s H1).
    now rewrite unit_eqb_refl.
Qed.

(** X15.  The operands sanitation returns need no further sanitation:
    sanitizing them again, in any state, hands them back as they are and
    changes nothing.  One pass brings the first two operands to a common
    unit whenever that is possible. *)
Theorem sanitation_is_idempotent
        (input input' ui : list pyval) (s sa t : state) :
  _sanitize_unit_args dot_to input s = (Ok (input', ui), sa) ->
  reconcilable input' = false
  /\ _sanitize_unit_args dot_to input' t
     = (Ok (input', map _extract_unyt input'), t).
Proof.
  intros H.
  assert (Hr : reconcilable input' = false).
  { destruct (reconcilable input) eqn:Hr.
    - unfold reconcilable in Hr.
      destruct input as [|i0 [|i1 rest]]; try discriminate.
      destruct (getattr_units (_extract_unyt i0)) as [u0|] eqn:H0; [|discriminate].
      destruct (getattr_units (_extract_unyt i1)) as [u1|] eqn:H1; [|discriminate].
      apply andb_true_iff in Hr as [Hne Hd]. apply negb_true_iff in Hne.
      rewrite (sanitize_reconciles i0 i1 rest s H0 H1 Hne Hd) in H.
      injection H as <- _ _. now apply reconciled_is_settled.
    - rewrite sanitize_untouched in H by exact Hr.
      injection H as <- _ _. exact Hr. }
  split; [exact Hr|now apply sanitize_untouched].
Qed.

(** Metres and centimetres, sanitized twice. *)
Lemma sanitation_is_idempotent_witness :
  _sanitize_unit_args dot_to
    [VInst x_m; VInst (converted y_cm (Fin (1 # 100)) ua.m 4)] s0
  = (Ok ([VInst x_m; VInst (converted y_cm (Fin (1 # 100)) ua.m 4)],
         map _extract_unyt
             [VInst x_m; VInst (converted y_cm (Fin (1 # 100)) ua.m 4)]),
     s0).
Proof.
  apply (proj2 (@sanitation_is_idempotent
                  [VInst x_m; VInst y_cm]
                  [VInst x_m; VInst (converted y_cm (Fin (1 # 100)) ua.m 4)]
                  (map _extract_unyt
                       [VInst x_m; VInst (converted y_cm (Fin (1 # 100)) ua.m 4)])
                  s2
                  (mkState 10 [node "__mul__" [grid; const (Fin (1 # 100))] []] [6])
                  s0 eq_refl)).
Defined.
